(** * Zed style generator: theme tokens, style-tree helpers, colour ramps,
      the [extends] resolver and the theme generation loop.

    The development follows the TypeScript sources under [src/]:
    - [components] ([text], [border], [player], [backgroundColor]),
    - [editor] (the editor style tree, in its two versions),
    - [projectPanel], [HoverPopover], [tabBar] and [workspace],
    - [cave] (a theme built from two four-step neutral tables),
    - the [ramps] tables of the ramp-based themes,
    - the generation loop writing one JSON file per theme.

    Style records are JavaScript objects: ordered maps from property name
    to value.  They are kept as association lists, because insertion order
    is what [JSON.stringify] emits. *)

From Stdlib Require Import Ascii QArith Qround Lqa.
From stdpp Require Import gmap strings list.

Set Default Proof Using "Type".
Set Warnings "-register-all".

(* ================================================================= *)
(** ** Results of computations that may throw *)

Inductive result (E A : Type) : Type :=
  | Ok (a : A)
  | Err (e : E).
Arguments Ok {E A} a.
Arguments Err {E A} e.

#[export] Instance result_ret E : MRet (result E) := fun _ a => Ok a.
#[export] Instance result_bind E : MBind (result E) :=
  fun _ _ f m => match m with Ok a => f a | Err e => Err e end.

Definition is_ok {E A} (r : result E A) : bool :=
  match r with Ok _ => true | Err _ => false end.

(* ================================================================= *)
(** ** JavaScript values and object literals *)

Inductive Value : Type :=
  | VUndefined
  | VBool (b : bool)
  | VNum (q : Q)
  | VStr (s : string)
  | VArr (items : list Value)
  | VObj (fields : list (string * Value)).
Arguments VNum q%_Q.

Abbreviation Obj := (list (string * Value)).

(** [o[k]]: the first binding of [k]. *)
Fixpoint get (k : string) (o : Obj) : option Value :=
  match o with
  | [] => None
  | (k', v) :: o' => if String.eqb k k' then Some v else get k o'
  end.

(** [o[k] = v]: an existing key keeps its position, a new key goes last. *)
Fixpoint set (k : string) (v : Value) (o : Obj) : Obj :=
  match o with
  | [] => [(k, v)]
  | (k', v') :: o' =>
      if String.eqb k k' then (k', v) :: o' else (k', v') :: set k v o'
  end.

(** The members of an object literal, in source order: [k: v] or [...o]. *)
Inductive Member : Type :=
  | Field (k : string) (v : Value)
  | Spread (o : Obj).

Definition assign (acc : Obj) (m : Member) : Obj :=
  match m with
  | Field k v => set k v acc
  | Spread o => fold_left (fun a kv => set kv.1 kv.2 a) o acc
  end.

(** [{ m1, m2, ... }]. *)
Definition literal (ms : list Member) : Obj := fold_left assign ms [].

(** JavaScript truthiness, as [||] and [?:] test it. *)
Definition truthy (v : Value) : bool :=
  match v with
  | VUndefined => false
  | VBool b => b
  | VNum q => negb (Qeq_bool q 0)
  | VStr s => negb (String.eqb s "")
  | VArr _ | VObj _ => true
  end.

(** Property read [o.k] on an object that is present: a missing key reads
    as [undefined]. *)
Definition prop (k : string) (o : Obj) : Value :=
  match get k o with Some v => v | None => VUndefined end.

Inductive Exn : Type :=
  | TypeError (msg : string).

Abbreviation JS := (result Exn).

(** An object literal whose initialisers may throw.  The members are
    evaluated in the order they are written, each on the object built so
    far; the first exception ends the evaluation of the literal. *)
Inductive Init : Type :=
  | FieldM (k : string) (v : JS Value)
  | SpreadM (o : JS Obj).

Definition assignM (acc : JS Obj) (m : Init) : JS Obj :=
  o ← acc;
  match m with
  | FieldM k v => x ← v; mret (set k x o)
  | SpreadM s => x ← s; mret (assign o (Spread x))
  end.

Definition literalM (ms : list Init) : JS Obj := fold_left assignM ms (Ok []).

(** A nested literal as the value of a member. *)
Definition objectM (ms : list Init) : JS Value :=
  o ← literalM ms; mret (VObj o).

(** A member whose initialiser is a value. *)
Definition pureM (m : Member) : Init :=
  match m with
  | Field k v => FieldM k (Ok v)
  | Spread o => SpreadM (Ok o)
  end.


(* ================================================================= *)
(** ** Tokens and the theme ([tokens], [themes/theme])

    The token and theme declarations are imported by the sources but are
    not part of them.  A token is an object read through [.value]; the
    shape of [Theme] is the object literal returned by [cave]. *)

Record Token (A : Type) : Type := { value : A; type : string }.
Arguments value {A} _.
Arguments type {A} _.

Abbreviation ColorToken := (Token string).
Abbreviation NumberToken := (Token Q).

(** [color(hex)]: the token of a hex colour. *)
Definition color (hex : string) : ColorToken :=
  {| value := hex; type := "color" |}.

(** [keyof Theme["backgroundColor"]] and [keyof BackgroundColor]. *)
Inductive BackgroundName : Type :=
  | bg100 | bg300 | bg500 | bgOn300 | bgOn500
  | bgOk | bgError | bgWarning | bgInfo.

Inductive BackgroundState : Type :=
  | base | hovered | active | focused.

(** [keyof Theme["borderColor"]]. *)
Inductive BorderColor : Type :=
  | bcPrimary | bcSecondary | bcMuted | bcFocused | bcActive
  | bcOk | bcError | bcWarning | bcInfo.

(** [keyof Theme["textColor"]] (also the keys of [iconColor]). *)
Inductive TextColor : Type :=
  | primary | secondary | muted | placeholder | tcActive | feature
  | ok | error | warning | info.

(** [1 | 2 | 3 | 4 | 5 | 6 | 7 | 8]. *)
Inductive PlayerNumber : Type :=
  | P1 | P2 | P3 | P4 | P5 | P6 | P7 | P8.



(** The fields of a player entry that the style tree reads. *)
Record PlayerToken : Type := {
  cursorColor : ColorToken;
  selectionColor : ColorToken;
}.

Record EditorLine : Type := {
  lineActive : ColorToken;
  lineHighlighted : ColorToken;
  lineInserted : ColorToken;
  lineDeleted : ColorToken;
  lineModified : ColorToken;
}.

Record EditorHighlight : Type := {
  hlSelection : ColorToken;
  hlOccurrence : ColorToken;
  hlActiveOccurrence : ColorToken;
  hlMatchingBracket : ColorToken;
  hlMatch : ColorToken;
  hlActiveMatch : ColorToken;
  hlRelated : ColorToken;
}.

Record EditorGutter : Type := {
  gutterPrimary : ColorToken;
  gutterActive : ColorToken;
}.

Record EditorTokens : Type := {
  editorBackground : ColorToken;
  indent_guide : ColorToken;
  indent_guide_active : ColorToken;
  line : EditorLine;
  highlight : EditorHighlight;
  gutter : EditorGutter;
}.

Record SyntaxHighlight : Type := {
  syntaxColor : ColorToken;
  syntaxWeight : NumberToken;
  syntaxUnderline : option bool;
  syntaxItalic : option bool;
}.

(** The token kinds of [Syntax], in the order [cave] lists them. *)
Inductive SyntaxKind : Type :=
  | syPrimary | syComment | syPunctuation | syConstant | syKeyword
  | syFunction | syType | syVariant | syProperty | syEnum | syOperator
  | syString | syNumber | syBoolean | syPredictive | syTitle | syEmphasis
  | syEmphasisStrong | syLinkUri | syLinkText.

Record Theme : Type := {
  name : string;
  backgroundColor_ : BackgroundName -> BackgroundState -> ColorToken;
  borderColor_ : BorderColor -> ColorToken;
  textColor_ : TextColor -> ColorToken;
  iconColor_ : TextColor -> ColorToken;
  editor_ : EditorTokens;
  syntax_ : SyntaxKind -> SyntaxHighlight;
  player_ : PlayerNumber -> PlayerToken;
  shadowAlpha : NumberToken;
}.

(** The part of [core] that [text] reads: [core.fontFamily[f]] and
    [core.fontSize[k].value]. *)
Record Core : Type := {
  fontFamily : string -> Value;
  fontSize : string -> NumberToken;
}.

(* ================================================================= *)
(** ** Style helpers ([components]) *)

Section Components.
Variable core : Core.

  (** [properties.k] where [properties] is an optional argument: reading
      a property of [undefined] throws. *)
Definition read (k : string) (properties : option Obj) : JS Value :=
    match properties with
    | Some o => Ok (prop k o)
    | None =>
        Err (TypeError ("Cannot read properties of undefined (reading '" +:+ k +:+ "')"))
    end.

  (** [properties.size || fontFamily === "sans" ? "sm" : "md"]:
      [||] binds tighter than [?:], so the condition is the disjunction. *)
Definition sizeKey (size : Value) (fontFamily : string) : string :=
    if truthy size || String.eqb fontFamily "sans" then "sm" else "md".

  (** [text(theme, fontFamily, color, properties?)]. *)
Definition text (theme : Theme) (family : string) (c : TextColor)
      (properties : option Obj) : JS Obj :=
    requested ← read "size" properties;
    let sizeKey := sizeKey requested family in
    let size := value (fontSize core sizeKey) in
    mret (literal [
      Field "family" (fontFamily core family);
      Field "color" (VStr (value (textColor_ theme c)));
      Spread (default [] properties);
      Field "size" (VNum size)
    ]).

  (** [border(theme, color)]. *)
Definition border (theme : Theme) (c : BorderColor) : Obj :=
    literal [
      Field "color" (VStr (value (borderColor_ theme c)));
      Field "width" (VNum 1)
    ].

  (** [player(theme, playerNumber)]. *)
Definition player (theme : Theme) (playerNumber : PlayerNumber) : Obj :=
    literal [
      Field "selection" (VObj (literal [
        Field "cursor" (VStr (value (cursorColor (player_ theme playerNumber))));
        Field "selection" (VStr (value (selectionColor (player_ theme playerNumber))))
      ]))
    ].

  (** [backgroundColor(theme, name, state?)]. *)
Definition backgroundColor (theme : Theme) (name : BackgroundName)
      (state : option BackgroundState) : Value :=
    VStr (value (backgroundColor_ theme name (default base state))).

  (** [iconColor] is imported from [components] by [editor] but is not
      among the helpers of the source; it is a parameter here. *)
Variable iconColor : Theme -> TextColor -> Value.

  (** A token object used whole (not through [.value]). *)
Definition token_object (t : ColorToken) : Value :=
    VObj (literal [Field "value" (VStr (value t)); Field "type" (VStr (type t))]).

  (** [player(theme, n).selection]. *)
Definition selection_of (theme : Theme) (n : PlayerNumber) : Value :=
    prop "selection" (player theme n).

  (* --------------------------------------------------------------- *)
  (** *** The editor style tree ([editor], the version that passes
          [properties] at every call of [text]) *)

Definition autocompleteItem : Obj :=
    literal [
      Field "cornerRadius" (VNum 6);
      Field "padding" (VObj (literal [
        Field "bottom" (VNum 2);
        Field "left" (VNum 6);
        Field "right" (VNum 6);
        Field "top" (VNum 2)
      ]))
    ].

  (** [diagnostic(theme, color)]; [border] takes two parameters, so the
      third argument [{ top: true }] of the call is not read. *)
Definition diagnostic (theme : Theme) (c : TextColor) : JS Obj :=
    t ← text theme "sans" c (Some (literal [Field "size" (VStr "sm")]));
    h ← text theme "sans" c (Some (literal [
           Field "size" (VStr "sm"); Field "weight" (VStr "bold")]));
    mret (literal [
      Field "textScaleFactor" (VNum 0.857);
      Field "header" (VObj (literal [
        Field "border" (VObj (border theme bcPrimary))
      ]));
      Field "message" (VObj (literal [
        Field "text" (VObj t);
        Field "highlightText" (VObj h)
      ]))
    ]).

Definition editor (theme : Theme) : JS Obj :=
    code ← text theme "mono" muted (Some (literal [Field "size" (VStr "sm")]));
    highlightText ← text theme "sans" primary (Some (literal [
           Field "size" (VStr "sm"); Field "weight" (VStr "bold")]));
    messageText ← text theme "sans" secondary (Some (literal [Field "size" (VStr "sm")]));
    filename ← text theme "mono" primary (Some (literal [Field "size" (VStr "sm")]));
    path ← text theme "mono" muted (Some (literal [Field "size" (VStr "sm")]));
    errorDiagnostic ← diagnostic theme error;
    warningDiagnostic ← diagnostic theme warning;
    informationDiagnostic ← diagnostic theme info;
    hintDiagnostic ← diagnostic theme info;
    invalidErrorDiagnostic ← diagnostic theme muted;
    invalidHintDiagnostic ← diagnostic theme muted;
    invalidInformationDiagnostic ← diagnostic theme muted;
    invalidWarningDiagnostic ← diagnostic theme muted;
    mret (literal [
      Field "textColor" (VStr (value (textColor_ theme secondary)));
      Field "background" (backgroundColor theme bg300 None);
      Field "activeLineBackground" (VStr (value (lineActive (line (editor_ theme)))));
      Field "codeActionsIndicator" (iconColor theme secondary);
      Field "diffBackgroundDeleted" (backgroundColor theme bgError None);
      Field "diffBackgroundInserted" (backgroundColor theme bgOk None);
      Field "documentHighlightReadBackground"
        (VStr (value (hlOccurrence (highlight (editor_ theme)))));
      Field "documentHighlightWriteBackground"
        (VStr (value (hlOccurrence (highlight (editor_ theme)))));
      Field "errorColor" (token_object (textColor_ theme error));
      Field "gutterBackground" (backgroundColor theme bg300 None);
      Field "gutterPaddingFactor" (VNum 2.5);
      Field "highlightedLineBackground"
        (VStr (value (lineHighlighted (line (editor_ theme)))));
      Field "lineNumber" (VStr (value (gutterPrimary (gutter (editor_ theme)))));
      Field "lineNumberActive" (token_object (gutterActive (gutter (editor_ theme))));
      Field "renameFade" (VNum 0.6);
      Field "unnecessaryCodeFade" (VNum 0.5);
      Field "selection" (selection_of theme P1);
      Field "guestSelections" (VArr [
        selection_of theme P2;
        selection_of theme P3;
        selection_of theme P4;
        selection_of theme P5;
        selection_of theme P6;
        selection_of theme P7;
        selection_of theme P8
      ]);
      Field "autocomplete" (VObj (literal [
        Field "background" (backgroundColor theme bg100 None);
        Field "cornerRadius" (VNum 6);
        Field "padding" (VNum 6);
        Field "border" (VObj (border theme bcSecondary));
        Field "item" (VObj autocompleteItem);
        Field "hoveredItem" (VObj (literal [
          Spread autocompleteItem;
          Field "background" (backgroundColor theme bg100 (Some hovered))
        ]));
        Field "margin" (VObj (literal [Field "left" (VNum (-14))]));
        Field "matchHighlight" (VObj (literal [
          Field "color" (VStr (value (syntaxColor (syntax_ theme syKeyword))));
          Field "weight" (VNum (value (syntaxWeight (syntax_ theme syKeyword))))
        ]));
        Field "selectedItem" (VObj (literal [
          Spread autocompleteItem;
          Field "background" (backgroundColor theme bg100 (Some active))
        ]))
      ]));
      Field "diagnosticHeader" (VObj (literal [
        Field "background" (VStr (value (editorBackground (editor_ theme))));
        Field "iconWidthFactor" (VNum 1.5);
        Field "textScaleFactor" (VNum 0.857);
        Field "border" (VObj (border theme bcSecondary));
        Field "code" (VObj (literal [
          Spread code;
          Field "margin" (VObj (literal [Field "left" (VNum 10)]))
        ]));
        Field "message" (VObj (literal [
          Field "highlightText" (VObj highlightText);
          Field "text" (VObj messageText)
        ]))
      ]));
      Field "diagnosticPathHeader" (VObj (literal [
        Field "background" (token_object (lineActive (line (editor_ theme))));
        Field "textScaleFactor" (VNum 0.857);
        Field "filename" (VObj filename);
        Field "path" (VObj (literal [
          Spread path;
          Field "margin" (VObj (literal [Field "left" (VNum 12)]))
        ]))
      ]));
      Field "errorDiagnostic" (VObj errorDiagnostic);
      Field "warningDiagnostic" (VObj warningDiagnostic);
      Field "informationDiagnostic" (VObj informationDiagnostic);
      Field "hintDiagnostic" (VObj hintDiagnostic);
      Field "invalidErrorDiagnostic" (VObj invalidErrorDiagnostic);
      Field "invalidHintDiagnostic" (VObj invalidHintDiagnostic);
      Field "invalidInformationDiagnostic" (VObj invalidInformationDiagnostic);
      Field "invalidWarningDiagnostic" (VObj invalidWarningDiagnostic)
    ]).

  (* --------------------------------------------------------------- *)
  (** *** Call sites of [text] that omit [properties] *)

  (** [diagnosticHeader] of the editor version that calls
      [text(theme, "mono", "muted")] and sets [size: 14] itself. *)
Definition diagnosticHeader (theme : Theme) : JS Obj :=
    code ← text theme "mono" muted None;
    highlightText ← text theme "sans" primary None;
    messageText ← text theme "sans" secondary None;
    mret (literal [
      Field "background" (VStr (value (editorBackground (editor_ theme))));
      Field "iconWidthFactor" (VNum 1.5);
      Field "textScaleFactor" (VNum 0.857);
      Field "border" (VObj (border theme bcSecondary));
      Field "code" (VObj (literal [
        Spread code;
        Field "size" (VNum 14);
        Field "margin" (VObj (literal [Field "left" (VNum 10)]))
      ]));
      Field "message" (VObj (literal [
        Field "highlightText" (VObj (literal [
          Spread highlightText;
          Field "size" (VNum 14);
          Field "weight" (VStr "bold")
        ]));
        Field "text" (VObj (literal [
          Spread messageText;
          Field "size" (VNum 14)
        ]))
      ]))
    ]).

  (** [projectDiagnostics] of [app]. *)
Definition projectDiagnostics (theme : Theme) : JS Obj :=
    emptyMessage ← text theme "sans" primary (Some (literal [Field "size" (VStr "lg")]));
    statusBarItem ← text theme "sans" muted None;
    mret (literal [
      Field "background" (backgroundColor theme bg300 None);
      Field "tabIconSpacing" (VNum 4);
      Field "tabIconWidth" (VNum 13);
      Field "tabSummarySpacing" (VNum 10);
      Field "emptyMessage" (VObj (literal [Spread emptyMessage]));
      Field "statusBarItem" (VObj (literal [
        Spread statusBarItem;
        Field "margin" (VObj (literal [Field "right" (VNum 10)]))
      ]))
    ]).

  (* --------------------------------------------------------------- *)
  (** *** The older editor style tree ([editor], the version that calls
          [text] without [properties] and sets [size: 14] itself)

      Its record is kept member by member, in source order, so that what
      has been evaluated before a member throws can be told. *)

  (** A state of a background by its key; the tables of a theme list no
      other state. *)
Definition backgroundState (key : string) : option BackgroundState :=
    if String.eqb key "base" then Some base
    else if String.eqb key "hovered" then Some hovered
    else if String.eqb key "active" then Some active
    else if String.eqb key "focused" then Some focused
    else None.

  (** [backgroundColor(theme, name, state)] with the state given by its
      key, [theme.backgroundColor[name][state || "base"].value]: a key
      that the table does not have reads [undefined], and reading
      [.value] of it throws. *)
Definition backgroundColorAt (theme : Theme) (name : BackgroundName)
      (state : string) : JS Value :=
    match backgroundState (if String.eqb state "" then "base" else state) with
    | Some s => Ok (backgroundColor theme name (Some s))
    | None =>
        Err (TypeError "Cannot read properties of undefined (reading 'value')")
    end.

  (** [diagnostic(theme, color)] of the older editor. *)
Definition diagnostic_007 (theme : Theme) (c : TextColor) : JS Obj :=
    literalM [
      FieldM "textScaleFactor" (Ok (VNum 0.857));
      FieldM "header" (objectM [
        FieldM "border" (Ok (VObj (border theme bcPrimary)))
      ]);
      FieldM "message" (objectM [
        FieldM "text" (objectM [
          SpreadM (text theme "sans" c None);
          FieldM "size" (Ok (VNum 14))
        ]);
        FieldM "highlightText" (objectM [
          SpreadM (text theme "sans" c
                     (Some (literal [Field "weight" (VStr "bold")])));
          FieldM "size" (Ok (VNum 14))
        ])
      ])
    ].

  (** The members of the record that the older editor returns. *)
Definition editor_007_members (theme : Theme) : list Init :=
    [ FieldM "textColor" (Ok (VStr (value (textColor_ theme secondary))));
      FieldM "background" (Ok (backgroundColor theme bg300 None));
      FieldM "activeLineBackground"
        (Ok (VStr (value (lineActive (line (editor_ theme))))));
      FieldM "codeActionsIndicator" (Ok (iconColor theme secondary));
      FieldM "diffBackgroundDeleted" (Ok (backgroundColor theme bgError None));
      FieldM "diffBackgroundInserted" (Ok (backgroundColor theme bgOk None));
      FieldM "documentHighlightReadBackground"
        (Ok (VStr (value (hlOccurrence (highlight (editor_ theme))))));
      FieldM "documentHighlightWriteBackground"
        (Ok (VStr (value (hlOccurrence (highlight (editor_ theme))))));
      FieldM "errorColor" (Ok (token_object (textColor_ theme error)));
      FieldM "gutterBackground" (Ok (backgroundColor theme bg300 None));
      FieldM "gutterPaddingFactor" (Ok (VNum 2.5));
      FieldM "highlightedLineBackground"
        (Ok (VStr (value (lineHighlighted (line (editor_ theme))))));
      FieldM "lineNumber"
        (Ok (VStr (value (gutterPrimary (gutter (editor_ theme))))));
      FieldM "lineNumberActive"
        (Ok (token_object (gutterActive (gutter (editor_ theme)))));
      FieldM "renameFade" (Ok (VNum 0.6));
      FieldM "unnecessaryCodeFade" (Ok (VNum 0.5));
      FieldM "selection" (Ok (selection_of theme P1));
      FieldM "guestSelections" (Ok (VArr [
        selection_of theme P2;
        selection_of theme P3;
        selection_of theme P4;
        selection_of theme P5;
        selection_of theme P6;
        selection_of theme P7;
        selection_of theme P8
      ]));
      FieldM "autocomplete" (objectM [
        FieldM "background" (Ok (backgroundColor theme bg100 None));
        FieldM "cornerRadius" (Ok (VNum 6));
        FieldM "padding" (Ok (VNum 6));
        FieldM "border" (Ok (VObj (border theme bcSecondary)));
        FieldM "item" (Ok (VObj autocompleteItem));
        FieldM "hoveredItem" (objectM [
          SpreadM (Ok autocompleteItem);
          FieldM "background" (backgroundColorAt theme bg100 "hover")
        ]);
        FieldM "margin" (Ok (VObj (literal [Field "left" (VNum (-14))])));
        FieldM "matchHighlight" (Ok (VObj (literal [
          Field "color" (VStr (value (syntaxColor (syntax_ theme syKeyword))));
          Field "weight" (VNum (value (syntaxWeight (syntax_ theme syKeyword))))
        ])));
        FieldM "selectedItem" (objectM [
          SpreadM (Ok autocompleteItem);
          FieldM "background" (backgroundColorAt theme bg100 "active")
        ])
      ]);
      FieldM "diagnosticHeader" (o ← diagnosticHeader theme; mret (VObj o));
      FieldM "diagnosticPathHeader" (objectM [
        FieldM "background" (Ok (token_object (lineActive (line (editor_ theme)))));
        FieldM "textScaleFactor" (Ok (VNum 0.857));
        FieldM "filename" (objectM [
          SpreadM (text theme "mono" primary None);
          FieldM "size" (Ok (VNum 14))
        ]);
        FieldM "path" (objectM [
          SpreadM (text theme "mono" muted None);
          FieldM "size" (Ok (VNum 14));
          FieldM "margin" (Ok (VObj (literal [Field "left" (VNum 12)])))
        ])
      ]);
      FieldM "errorDiagnostic" (o ← diagnostic_007 theme error; mret (VObj o));
      FieldM "warningDiagnostic" (o ← diagnostic_007 theme warning; mret (VObj o));
      FieldM "informationDiagnostic" (o ← diagnostic_007 theme info; mret (VObj o));
      FieldM "hintDiagnostic" (o ← diagnostic_007 theme info; mret (VObj o));
      FieldM "invalidErrorDiagnostic" (o ← diagnostic_007 theme muted; mret (VObj o));
      FieldM "invalidHintDiagnostic" (o ← diagnostic_007 theme muted; mret (VObj o));
      FieldM "invalidInformationDiagnostic"
        (o ← diagnostic_007 theme muted; mret (VObj o));
      FieldM "invalidWarningDiagnostic"
        (o ← diagnostic_007 theme muted; mret (VObj o)) ].

Definition editor_007 (theme : Theme) : JS Obj :=
    literalM (editor_007_members theme).

End Components.

(* ================================================================= *)
(** ** The cave theme ([themes/cave]) *)

Inductive Step : Type := step0 | step1 | step2 | step3.

Inductive Hue : Type :=
  | red | orange | yellow | green | cyan | blue | violet | magenta.

(** Dark: 0 == Darkest, 3 == Lightest *)
Definition dark (i : Step) : ColorToken :=
  match i with
  | step0 => color "#19171c"
  | step1 => color "#26232a"
  | step2 => color "#585260"
  | step3 => color "#655f6d"
  end.

(** Light: 0 == Lightest, 3 == Darkest *)
Definition light (i : Step) : ColorToken :=
  match i with
  | step0 => color "#efecf4"
  | step1 => color "#e2dfe7"
  | step2 => color "#8b8792"
  | step3 => color "#7e7887"
  end.

Definition colors (h : Hue) : ColorToken :=
  match h with
  | red => color "#be4678"
  | orange => color "#aa573c"
  | yellow => color "#a06e3b"
  | green => color "#2a9292"
  | cyan => color "#398bc6"
  | blue => color "#576ddb"
  | violet => color "#955ae7"
  | magenta => color "#bf40bf"
  end.

Section Cave.
  (** Imported by [cave] and declared outside the sources. *)
Variable withOpacity : ColorToken -> Q -> ColorToken.
Variable buildPlayer : ColorToken -> PlayerToken.
Variable fontWeights_normal fontWeights_bold : NumberToken.

Definition cave (darkTheme : bool) : Theme :=
    let fg := if darkTheme then light else dark in
    let bg := if darkTheme then dark else light in
    let name := if darkTheme then "cave-dark" else "cave-light" in
    let backgroundColor (n : BackgroundName) (s : BackgroundState) : ColorToken :=
      match n, s with
      | bg100, base => bg step1
      | bg100, hovered => bg step3
      | bg100, active => bg step3
      | bg100, focused => bg step3
      | bg300, base => bg step1
      | bg300, hovered => bg step3
      | bg300, active => bg step3
      | bg300, focused => bg step3
      | bg500, base => bg step0
      | bg500, hovered => bg step1
      | bg500, active => bg step1
      | bg500, focused => bg step1
      | bgOn300, base => bg step0
      | bgOn300, hovered => bg step1
      | bgOn300, active => bg step1
      | bgOn300, focused => bg step1
      | bgOn500, base => bg step1
      | bgOn500, hovered => bg step3
      | bgOn500, active => bg step3
      | bgOn500, focused => bg step3
      | bgOk, _ => colors green
      | bgError, _ => colors red
      | bgWarning, _ => colors yellow
      | bgInfo, _ => colors blue
      end in
    let borderColor (c : BorderColor) : ColorToken :=
      match c with
      | bcPrimary => bg step0
      | bcSecondary => bg step1
      | bcMuted => bg step3
      | bcFocused => bg step3
      | bcActive => bg step3
      | bcOk => colors green
      | bcError => colors red
      | bcWarning => colors yellow
      | bcInfo => colors blue
      end in
    let textColor (c : TextColor) : ColorToken :=
      match c with
      | primary => fg step1
      | secondary => fg step2
      | muted => fg step2
      | placeholder => fg step3
      | tcActive => fg step0
      | feature => colors blue
      | ok => colors green
      | error => colors red
      | warning => colors yellow
      | info => colors blue
      end in
    let player (n : PlayerNumber) : PlayerToken :=
      match n with
      | P1 => buildPlayer (colors blue)
      | P2 => buildPlayer (colors green)
      | P3 => buildPlayer (colors magenta)
      | P4 => buildPlayer (colors orange)
      | P5 => buildPlayer (colors violet)
      | P6 => buildPlayer (colors cyan)
      | P7 => buildPlayer (colors red)
      | P8 => buildPlayer (colors yellow)
      end in
    let editor := {|
      editorBackground := backgroundColor bg500 base;
      indent_guide := borderColor bcMuted;
      indent_guide_active := borderColor bcSecondary;
      line := {|
        lineActive := withOpacity (fg step0) 0.07%Q;
        lineHighlighted := withOpacity (fg step0) 0.12%Q;
        lineInserted := backgroundColor bgOk active;
        lineDeleted := backgroundColor bgError active;
        lineModified := backgroundColor bgInfo active;
      |};
      highlight := {|
        hlSelection := selectionColor (player P1);
        hlOccurrence := withOpacity (bg step0) 0.12%Q;
        hlActiveOccurrence := withOpacity (bg step0) 0.16%Q;
        hlMatchingBracket := backgroundColor bg500 active;
        hlMatch := withOpacity (colors violet) 0.5%Q;
        hlActiveMatch := withOpacity (colors violet) 0.7%Q;
        hlRelated := backgroundColor bg500 focused;
      |};
      gutter := {|
        gutterPrimary := textColor placeholder;
        gutterActive := textColor tcActive;
      |};
    |} in
    let plain (c : ColorToken) (w : NumberToken) : SyntaxHighlight :=
      {| syntaxColor := c; syntaxWeight := w;
         syntaxUnderline := None; syntaxItalic := None |} in
    let syntax (k : SyntaxKind) : SyntaxHighlight :=
      match k with
      | syPrimary => plain (fg step0) fontWeights_normal
      | syComment => plain (fg step2) fontWeights_normal
      | syPunctuation => plain (fg step2) fontWeights_normal
      | syConstant => plain (fg step3) fontWeights_normal
      | syKeyword => plain (colors blue) fontWeights_normal
      | syFunction => plain (colors yellow) fontWeights_normal
      | syType => plain (colors cyan) fontWeights_normal
      | syVariant => plain (colors blue) fontWeights_normal
      | syProperty => plain (colors blue) fontWeights_normal
      | syEnum => plain (colors orange) fontWeights_normal
      | syOperator => plain (colors orange) fontWeights_normal
      | syString => plain (colors orange) fontWeights_normal
      | syNumber => plain (colors green) fontWeights_normal
      | syBoolean => plain (colors green) fontWeights_normal
      | syPredictive => plain (textColor muted) fontWeights_normal
      | syTitle => plain (colors yellow) fontWeights_bold
      | syEmphasis => plain (textColor feature) fontWeights_normal
      | syEmphasisStrong => plain (textColor feature) fontWeights_bold
      | syLinkUri =>
          {| syntaxColor := colors green; syntaxWeight := fontWeights_normal;
             syntaxUnderline := Some true; syntaxItalic := None |}
      | syLinkText =>
          {| syntaxColor := colors orange; syntaxWeight := fontWeights_normal;
             syntaxUnderline := None; syntaxItalic := Some true |}
      end in
    let shadowAlpha : NumberToken := {| value := 0.32%Q; type := "number" |} in
    {|
      name := name;
      backgroundColor_ := backgroundColor;
      borderColor_ := borderColor;
      textColor_ := textColor;
      iconColor_ := textColor;
      editor_ := editor;
      syntax_ := syntax;
      player_ := player;
      shadowAlpha := shadowAlpha;
    |}.
End Cave.

(** *** Lightness of a hex colour

    The colours of [cave] are compared by luma (Rec. 709 weights on the
    sRGB channels, scaled by 10000). *)

Definition hexDigit (c : Ascii.ascii) : option Z :=
  let n := Z.of_N (Ascii.N_of_ascii c) in
  if (48 <=? n)%Z && (n <=? 57)%Z then Some (n - 48)%Z
  else if (97 <=? n)%Z && (n <=? 102)%Z then Some (n - 87)%Z
  else if (65 <=? n)%Z && (n <=? 70)%Z then Some (n - 55)%Z
  else None.

Definition hexByte (hi lo : Ascii.ascii) : option Z :=
  h ← hexDigit hi; l ← hexDigit lo; Some (16 * h + l)%Z.

(** ["#rrggbb"] to its three channels. *)
Definition rgb (hex : string) : option (Z * Z * Z) :=
  match hex with
  | String "#"%char (String r1 (String r2 (String g1 (String g2
      (String b1 (String b2 EmptyString)))))) =>
      r ← hexByte r1 r2; g ← hexByte g1 g2; b ← hexByte b1 b2; Some (r, g, b)
  | _ => None
  end.

Definition luma (hex : string) : Z :=
  match rgb hex with
  | Some (r, g, b) => (2126 * r + 7152 * g + 722 * b)%Z
  | None => 0%Z
  end.

(* ================================================================= *)
(** ** The [ramps] tables of the ramp-based themes

    Each theme declares [const ramps = { neutral: ..., red: ..., ... }]
    and passes it to [createColorScheme(name, isLight, ramps)].  An entry
    is written either [chroma.scale([seeds])], optionally followed by
    [.domain([breakpoints])], or [colorRamp(chroma(seed))].  The helper
    [colorRamp] makes a ramp of one colour; how it does so is not in the
    sources, and only the argument of the call is kept. *)

Inductive RampCall : Type :=
  | chroma_scale (seedColors : list string) (domain : option (list Q))
  | colorRamp (seed : string).

Record ThemeRamps : Type := {
  scheme_name : string;
  isLight : bool;
  ramps : list (string * RampCall);
}.

(** [themes/summercamp] *)
Definition summercamp : ThemeRamps := {|
  scheme_name := "Summercamp";
  isLight := false;
  ramps := [
    ("neutral", chroma_scale
       ["#1c1810"; "#2a261c"; "#3a3527"; "#3a3527";
        "#5f5b45"; "#736e55"; "#bab696"; "#f8f5de"]
       (Some [0; 0.2; 0.38; 0.4; 0.65; 0.7; 0.85; 1]%Q));
    ("red", colorRamp "#e35142");
    ("orange", colorRamp "#fba11b");
    ("yellow", colorRamp "#f2ff27");
    ("green", colorRamp "#5ceb5a");
    ("cyan", colorRamp "#5aebbc");
    ("blue", colorRamp "#489bf0");
    ("violet", colorRamp "#FF8080");
    ("magenta", colorRamp "#F69BE7")
  ];
|}.

(** [themes/rose-pine], the [createColorScheme] version *)
Definition rose_pine : ThemeRamps := {|
  scheme_name := "rosé-pine";
  isLight := false;
  ramps := [
    ("neutral", chroma_scale
       ["#191724"; "#1f1d2e"; "#26233A"; "#3E3A53";
        "#56526C"; "#6E6A86"; "#908CAA"; "#E0DEF4"]
       None);
    ("red", colorRamp "#EB6F92");
    ("orange", colorRamp "#EBBCBA");
    ("yellow", colorRamp "#F6C177");
    ("green", colorRamp "#8DBD8D");
    ("cyan", colorRamp "#409BBE");
    ("blue", colorRamp "#9CCFD8");
    ("violet", colorRamp "#C4A7E7");
    ("magenta", colorRamp "#AB6FE9")
  ];
|}.

(** [themes/rose-pine], the [ThemeConfig] version: [input_color].  The
    seeds are entries of the palette [color] (declared outside the
    sources) and two mixes of them; they are kept by name. *)
Definition rose_pine_config : ThemeRamps := {|
  scheme_name := "Rosé Pine";
  isLight := false;
  ramps := [
    ("neutral", chroma_scale
       ["color.base"; "color.surface"; "color.highlight_high";
        "color.overlay"; "color.muted"; "color.subtle"; "color.text"]
       None);
    ("red", colorRamp "color.love");
    ("orange", colorRamp "color.iris");
    ("yellow", colorRamp "color.gold");
    ("green", colorRamp "green");
    ("cyan", colorRamp "color.pine");
    ("blue", colorRamp "color.foam");
    ("violet", colorRamp "color.iris");
    ("magenta", colorRamp "magenta")
  ];
|}.

(** [themes/rose-pine-dawn], first definition *)
Definition rose_pine_dawn : ThemeRamps := {|
  scheme_name := "Rosé Pine Dawn";
  isLight := true;
  ramps := [
    ("neutral", chroma_scale
       ["#575279"; "#797593"; "#9893A5"; "#B5AFB8";
        "#D3CCCC"; "#F2E9E1"; "#FFFAF3"; "#FAF4ED"]
       (Some [0; 0.35; 0.45; 0.65; 0.7; 0.8; 0.9; 1]%Q));
    ("red", colorRamp "#B4637A");
    ("orange", colorRamp "#D7827E");
    ("yellow", colorRamp "#EA9D34");
    ("green", colorRamp "#679967");
    ("cyan", colorRamp "#286983");
    ("blue", colorRamp "#56949F");
    ("violet", colorRamp "#907AA9");
    ("magenta", colorRamp "#79549F")
  ];
|}.

(** [themes/rose-pine-dawn], second definition *)
Definition rose_pine_dawn' : ThemeRamps := {|
  scheme_name := "rosé-pine-dawn";
  isLight := true;
  ramps := [
    ("neutral", chroma_scale
       ["#575279"; "#797593"; "#9893A5"; "#B5AFB8";
        "#D3CCCC"; "#F2E9E1"; "#FFFAF3"; "#FAF4ED"]
       (Some [0; 0.73; 1]%Q));
    ("red", colorRamp "#B4637A");
    ("orange", colorRamp "#D7827E");
    ("yellow", colorRamp "#EA9D34");
    ("green", colorRamp "#679967");
    ("cyan", colorRamp "#286983");
    ("blue", colorRamp "#56949F");
    ("violet", colorRamp "#907AA9");
    ("magenta", colorRamp "#79549F")
  ];
|}.

(** The sandcastle theme *)
Definition sandcastle : ThemeRamps := {|
  scheme_name := "sandcastle";
  isLight := false;
  ramps := [
    ("neutral", chroma_scale
       ["#282c34"; "#2c323b"; "#3e4451"; "#665c54";
        "#928374"; "#a89984"; "#d5c4a1"; "#fdf4c1"]
       None);
    ("red", colorRamp "#B4637A");
    ("orange", colorRamp "#a07e3b");
    ("yellow", colorRamp "#a07e3b");
    ("green", colorRamp "#83a598");
    ("cyan", colorRamp "#83a598");
    ("blue", colorRamp "#528b8b");
    ("violet", colorRamp "#d75f5f");
    ("magenta", colorRamp "#a87322")
  ];
|}.

Definition ramp_themes : list ThemeRamps :=
  [summercamp; rose_pine; rose_pine_config; rose_pine_dawn; rose_pine_dawn';
   sandcastle].

(** Every entry of every theme, with the role it is bound to. *)
Definition ramp_calls : list (string * RampCall) :=
  flat_map ramps ramp_themes.

Definition Qlt_bool (a b : Q) : bool := negb (Qle_bool b a).

Fixpoint strictly_increasing (d : list Q) : bool :=
  match d with
  | a :: (b :: _) as d' => Qlt_bool a b && strictly_increasing d'
  | _ => true
  end.

Definition in_unit_interval (d : list Q) : bool :=
  forallb (fun x => Qle_bool 0 x && Qle_bool x 1) d.

(** "A strictly increasing sequence of breakpoints", in the words of the
    spec: every breakpoint is below every later one.  [strictly_increasing]
    is the check that runs. *)
Definition breakpoints_increase (d : list Q) : Prop :=
  ∀ i j x y, i < j → d !! i = Some x → d !! j = Some y → (x < y)%Q.

(** What a scale of the themes that sets a domain is checked for: strictly
    increasing breakpoints in [0,1], no more of them than seed colours. *)
Definition domain_fits (c : RampCall) : bool :=
  match c with
  | chroma_scale seedColors (Some d) =>
      strictly_increasing d && in_unit_interval d
      && (length d <=? length seedColors)
  | _ => true
  end.

(* ================================================================= *)
(** ** The ramp builder and sampler

    [chroma.scale], [colorRamp] and [createColorScheme] are imported by
    the themes and are not part of the sources. *)

Inductive RampError : Type :=
  | InvalidRampError.

Record Ramp (C : Type) : Type := {
  seeds : list C;
  domain : option (list Q);
}.
Arguments seeds {C} _.
Arguments domain {C} _.

Definition valid_domain (d : list Q) : bool :=
  (2 <=? length d) && strictly_increasing d && in_unit_interval d.

(** Modelled from the spec: [buildRamp(seedColors) -> Ramp], with the
    optional [domain]; the builder itself is not under [src/].  It fails
    with [InvalidRampError] on fewer than 2 seeds and on a domain that is
    not a strictly increasing sequence of breakpoints in [0,1].  The
    length of the domain is not compared with the number of seeds: the
    themes remap 8 seeds through 3 breakpoints. *)
Definition buildRamp {C : Type} (seedColors : list C)
    (domain : option (list Q)) : result RampError (Ramp C) :=
  if length seedColors <? 2 then Err InvalidRampError
  else match domain with
       | None => Ok {| seeds := seedColors; domain := None |}
       | Some d =>
           if valid_domain d then Ok {| seeds := seedColors; domain := Some d |}
           else Err InvalidRampError
       end.

(** Positions outside [0,1] are clamped. *)
Definition clamp01 (t : Q) : Q :=
  if Qle_bool t 0 then 0%Q else if Qle_bool 1 t then 1%Q else t.

Definition Qnat (n : nat) : Q := inject_Z (Z.of_nat n).

(** [locate i d t]: where [t] falls among the breakpoints [d], counted in
    intervals from [i]: breakpoint number [j] is at [i + j]; a position
    below the first breakpoint or above the last one sticks to it. *)
Fixpoint locate (i : nat) (d : list Q) (t : Q) : Q :=
  match d with
  | a :: (b :: _) as d' =>
      if Qle_bool t a then Qnat i
      else if Qle_bool t b then (Qnat i + (t - a) / (b - a))%Q
      else locate (S i) d' t
  | _ => Qnat i
  end.

(** Modelled from the spec: the [domain] remapping.  The breakpoints are
    sent to evenly spaced positions of [0,1]; between two breakpoints the
    position moves linearly (the spec leaves the curve between breakpoints
    open). *)
Definition remap (d : list Q) (t : Q) : Q :=
  (locate 0 d t / Qnat (length d - 1))%Q.

Section Sample.
Context {C : Type}.
  (** Interpolation between two colours in the perceptual space
      ([chroma]'s, outside the sources). *)
Variable mix : C -> C -> Q -> C.

  (** Modelled from the spec: the interpolation "between the two seed
      colors bracketing [position]".  The seeds are evenly spaced on
      [0,1]; [u] is interpolated between the two seeds that bracket it. *)
Definition interpolate (seeds : list C) (u : Q) : option C :=
    let k := length seeds in
    let x := (u * Qnat (k - 1))%Q in
    let i := Nat.min (Z.to_nat (Qfloor x)) (k - 2) in
    match seeds !! i, seeds !! S i with
    | Some a, Some b => Some (mix a b (x - Qnat i)%Q)
    | _, _ => None
    end.

  (** Modelled from the spec: [Ramp.sample(position)].  The position is
      clamped to [0,1], re-mapped through the domain when there is one,
      and interpolated between the bracketing seeds. *)
Definition sample (r : Ramp C) (position : Q) : option C :=
    let t := clamp01 position in
    interpolate (seeds r) (from_option (fun d => remap d t) t (domain r)).
End Sample.

(* ================================================================= *)
(** ** Inheritance by [extends]

    The style tree of [app] carries references such as
    [extends: "$search.editor"].  The resolver that interprets them is not
    part of the sources. *)

Abbreviation Path := (list string).

(** The segments of a dotted path. *)
Fixpoint segments (s : string) : list string :=
  match s with
  | EmptyString => [EmptyString]
  | String c s' =>
      if Ascii.eqb c "."%char then EmptyString :: segments s'
      else match segments s' with
           | h :: t => String c h :: t
           | [] => [String c EmptyString]
           end
  end.

(** ["$a.b.c"] to [["a"; "b"; "c"]]. *)
Definition parse_path (ref : string) : Path :=
  match ref with
  | String "$"%char s => segments s
  | _ => segments ref
  end.

Fixpoint lookup_path (v : Value) (p : Path) : option Value :=
  match p with
  | [] => Some v
  | k :: p' =>
      match v with
      | VObj o => match get k o with
                  | Some c => lookup_path c p'
                  | None => None
                  end
      | _ => None
      end
  end.

(** The [extends] reference of a node, if it declares one. *)
Definition extends_of (o : Obj) : option string :=
  match get "extends" o with
  | Some (VStr ref) => Some ref
  | _ => None
  end.

(** The keys a node declares itself: all of them, less the [extends]
    reference when there is one. *)
Definition own_keys (o : Obj) : list string :=
  match extends_of o with
  | Some _ => filter (fun k => k ≠ "extends") (map fst o)
  | None => map fst o
  end.

Definition has_key (k : string) (o : Obj) : bool :=
  match get k o with Some _ => true | None => false end.

(** [overlay inherited own]: the node's own properties on top of the
    inherited ones.  Own values win; where both sides hold an object the
    two are merged key by key.  Inherited keys keep their place, new keys
    follow. *)
Fixpoint overlay (inherited own : Value) {struct inherited} : Value :=
  match inherited, own with
  | VObj bf, VObj ow =>
      VObj
        ((fix merged (l : Obj) : Obj :=
            match l with
            | [] => []
            | (k, bv) :: l' =>
                (k, match get k ow with
                    | Some ov => overlay bv ov
                    | None => bv
                    end) :: merged l'
            end) bf
         ++ filter (fun kv => negb (has_key kv.1 bf)) ow)
  | _, _ => own
  end.

Inductive ResolveError : Type :=
  | DanglingExtendsError (path : Path)
  | CyclicExtendsError (path : Path)
  | OutOfFuel.

(** Modelled from the spec: the inheritance resolver.  [resolveAt]
    resolves the node at path [p] of [root].  [stack] holds the paths whose
    resolution is in progress; meeting one of them again is a cycle.  A
    node with an [extends] reference takes the resolved properties of the
    referenced node and overlays its own resolved properties on top. *)
Fixpoint resolveAt (fuel : nat) (root : Value) (stack : list Path) (p : Path)
    : result ResolveError Value :=
  match fuel with
  | O => Err OutOfFuel
  | S fuel =>
      if bool_decide (p ∈ stack) then Err (CyclicExtendsError p)
      else
        match lookup_path root p with
        | None => Err (DanglingExtendsError p)
        | Some (VObj o) =>
            inherited ←
              match extends_of o with
              | Some ref => resolveAt fuel root (p :: stack) (parse_path ref)
              | None => Ok (VObj [])
              end;
            own ← mapM (fun k =>
                     v ← resolveAt fuel root (p :: stack) (p ++ [k]);
                     mret (k, v))
                   (own_keys o);
            mret (overlay inherited (VObj own))
        | Some v => Ok v
        end
  end.

(** Every path of a tree, the root's included. *)
Fixpoint all_paths (v : Value) : list Path :=
  [] :: match v with
        | VObj o =>
            (fix below (l : Obj) : list Path :=
               match l with
               | [] => []
               | (k, c) :: l' => map (cons k) (all_paths c) ++ below l'
               end) o
        | _ => []
        end.

(** Resolution of a whole tree.  The stack never holds a path twice, so
    one unit of fuel per path (and one to start) is enough. *)
Definition resolve (root : Value) : result ResolveError Value :=
  resolveAt (S (length (all_paths root))) root [] [].






Definition fields_of (v : Value) : Obj :=
  match v with VObj o => o | _ => [] end.

Definition is_object (v : Value) : bool :=
  match v with VObj _ => true | _ => false end.


(** The [search] component of [app], as far as [editor] and
    [invalidEditor]: the only pair of the tree whose references stay
    inside the component. *)
Definition search_editor : Obj :=
  literal [
    Field "background" (VStr "$surface.500");
    Field "cornerRadius" (VNum 6);
    Field "maxWidth" (VNum 400);
    Field "placeholderText" (VStr "$text.muted");
    Field "selection" (VStr "$selection.host");
    Field "text" (VStr "$text.primary");
    Field "border" (VObj (literal [
      Field "color" (VStr "$border.primary");
      Field "width" (VNum 1)
    ]));
    Field "margin" (VObj (literal [
      Field "bottom" (VNum 5);
      Field "left" (VNum 5);
      Field "right" (VNum 5);
      Field "top" (VNum 5)
    ]));
    Field "padding" (VObj (literal [
      Field "bottom" (VNum 3);
      Field "left" (VNum 13);
      Field "right" (VNum 13);
      Field "top" (VNum 3)
    ]))
  ].

Definition search_invalidEditor : Obj :=
  literal [
    Field "extends" (VStr "$search.editor");
    Field "border" (VObj (literal [
      Field "color" (VStr "$status.bad");
      Field "width" (VNum 1)
    ]))
  ].

Definition search_tree : Value :=
  VObj (literal [
    Field "search" (VObj (literal [
      Field "editor" (VObj search_editor);
      Field "invalidEditor" (VObj search_invalidEditor)
    ]))
  ]).

(** [search.invalidEditor] once resolved: the properties of
    [search.editor] with the node's own [border] on top. *)
Definition search_invalidEditor_resolved : Value :=
  VObj (literal [
    Field "background" (VStr "$surface.500");
    Field "cornerRadius" (VNum 6);
    Field "maxWidth" (VNum 400);
    Field "placeholderText" (VStr "$text.muted");
    Field "selection" (VStr "$selection.host");
    Field "text" (VStr "$text.primary");
    Field "border" (VObj (literal [
      Field "color" (VStr "$status.bad");
      Field "width" (VNum 1)
    ]));
    Field "margin" (VObj (literal [
      Field "bottom" (VNum 5);
      Field "left" (VNum 5);
      Field "right" (VNum 5);
      Field "top" (VNum 5)
    ]));
    Field "padding" (VObj (literal [
      Field "bottom" (VNum 3);
      Field "left" (VNum 13);
      Field "right" (VNum 13);
      Field "top" (VNum 3)
    ]))
  ]).


Definition self_tree : Value :=
  VObj (literal [
    Field "x" (VObj (literal [Field "extends" (VStr "$x")]))
  ]).

(* ================================================================= *)
(** ** The generation loop

    [for (let theme of themes) { ... fs.writeFileSync(outPath, styleTreeJSON);
    console.log(`Generated ${outPath}`) }].  The file system and the
    console are the state the loop acts on. *)

Record World : Type := {
  files : gmap string string;
  console : list string;
}.

Section Generate.
  (** [app], [decamelizeTree], [JSON.stringify(_, null, 2)],
      [path.resolve] and [__dirname]: imported or built in. *)
Variable app : Theme → JS Value.
Variable decamelizeTree : Value → Value.
Variable stringify : Value → string.
Variable path_resolve : string → string.
Variable dirname : string.

Definition outPath (theme : Theme) : string :=
    path_resolve (dirname +:+ "/../crates/zed/assets/themes/" +:+ name theme +:+ ".json").

  (** The text written for a theme: [JSON.stringify(decamelizeTree(app(theme)), null, 2)]. *)
Definition styleTreeJSON (theme : Theme) : JS string :=
    tree ← app theme;
    mret (stringify (decamelizeTree tree)).

  (** One turn of the loop. *)
Definition generate_theme (theme : Theme) (w : World) : JS World :=
    json ← styleTreeJSON theme;
    mret {| files := <[outPath theme := json]> (files w);
            console := console w ++ ["Generated " +:+ outPath theme] |}.

  (** The loop; an exception leaves it, keeping what was written. *)
Fixpoint generate (themes : list Theme) (w : World) : World * option Exn :=
    match themes with
    | [] => (w, None)
    | theme :: themes' =>
        match generate_theme theme w with
        | Ok w' => generate themes' w'
        | Err e => (w, Some e)
        end
    end.

  (** The files a run writes, in order: a function of the themes alone. *)
Fixpoint outputs (themes : list Theme) : list (string * string) :=
    match themes with
    | [] => []
    | theme :: themes' =>
        match styleTreeJSON theme with
        | Ok json => (outPath theme, json) :: outputs themes'
        | Err _ => []
        end
    end.

(** The exception that ends a run, if any. *)
Fixpoint failure (themes : list Theme) : option Exn :=
  match themes with
  | [] => None
  | theme :: themes' =>
      match styleTreeJSON theme with
      | Ok _ => failure themes'
      | Err e => Some e
      end
  end.

Definition write_all (fs : gmap string string) (ws : list (string * string))
      : gmap string string :=
    fold_left (fun m kv => <[kv.1 := kv.2]> m) ws fs.
End Generate.

(* ================================================================= *)
(** ** More of the style tree ([styleTree])

    [projectPanel] is built from the helpers of [components], as the
    editor is, on top of the [panel] constant of [app]; [iconColor] is
    imported from [components] and is not among its helpers in the
    sources: it is a parameter. *)


Section StyleTree.
Variable core : Core.
Variable iconColor : Theme → TextColor → Value.


End StyleTree.

(* ================================================================= *)
(** ** Components over layers ([HoverPopover], [tabBar])

    These take an elevation or a colour scheme and style it through
    [background], [foreground], [border] and [text] applied to a layer.
    Those helpers, [withOpacity] and the [Elevation] and [ColorScheme]
    declarations are imported, not in the sources: a helper is a
    function of the layer and of the remaining arguments of the call. *)

Section Layers.
Variable Layer : Type.

(** What the components read of an elevation: [middle], [top], [shadow],
    [above.shadow] and [ramps.neutral(0.5).alpha(0.2).hex()]. *)
Record Elevation : Type := {
  middle : Layer;
  top : Layer;
  shadow : Value;
  above_shadow : Value;
  ramps_neutral_highlight : Value;
}.

(** What [tabBar] reads of a colour scheme: [lowest]. *)
Record ColorScheme : Type := {
  lowest : Elevation;
}.

Variable background foreground : Layer → list Value → Value.
Variable layerBorder layerText : Layer → list Value → Obj.
Variable withOpacityValue : Value → Q → Value.

(** The [baseContainer] constant of [HoverPopover]. *)
Definition baseContainer (elevation : Elevation) : Obj :=
  let layer := middle elevation in
  literal [
    Field "background" (background layer []);
    Field "cornerRadius" (VNum 8);
    Field "padding" (VObj (literal [
      Field "left" (VNum 8);
      Field "right" (VNum 8);
      Field "top" (VNum 4);
      Field "bottom" (VNum 4)
    ]));
    Field "shadow" (shadow elevation);
    Field "border" (VObj (layerBorder layer []));
    Field "margin" (VObj (literal [Field "left" (VNum (-8))]))
  ].

(** [HoverPopover(elevation)] *)
Definition HoverPopover (elevation : Elevation) : Obj :=
  let layer := middle elevation in
  let baseContainer := baseContainer elevation in
  literal [
    Field "container" (VObj baseContainer);
    Field "infoContainer" (VObj (literal [
      Spread baseContainer;
      Field "background" (background layer [VStr "accent"]);
      Field "border" (VObj (layerBorder layer [VStr "accent"]))
    ]));
    Field "warningContainer" (VObj (literal [
      Spread baseContainer;
      Field "background" (background layer [VStr "warning"]);
      Field "border" (VObj (layerBorder layer [VStr "warning"]))
    ]));
    Field "errorContainer" (VObj (literal [
      Spread baseContainer;
      Field "background" (background layer [VStr "negative"]);
      Field "border" (VObj (layerBorder layer [VStr "negative"]))
    ]));
    Field "block_style" (VObj (literal [
      Field "padding" (VObj (literal [Field "top" (VNum 4)]))
    ]));
    Field "prose" (VObj (layerText layer [VStr "sans"; VObj (literal [Field "size" (VStr "sm")])]));
    Field "highlight" (ramps_neutral_highlight elevation)
  ].

(** The [tab] constant of [tabBar]. *)
Definition tabBar_tab (layer : Layer) : Obj :=
  literal [
    Field "height" (VNum 32);
    Field "background" (background layer []);
    Field "border" (VObj (layerBorder layer [VObj (literal [
      Field "left" (VBool true);
      Field "bottom" (VBool true);
      Field "overlay" (VBool true)
    ])]));
    Field "iconClose" (foreground layer []);
    Field "iconCloseActive" (foreground layer [VStr "base"; VStr "active"]);
    Field "iconConflict" (foreground layer [VStr "warning"]);
    Field "iconDirty" (foreground layer [VStr "info"]);
    Field "iconWidth" (VNum 8);
    Field "spacing" (VNum 8);
    Field "text" (VObj (layerText layer [VStr "sans"; VObj (literal [Field "size" (VStr "sm")])]));
    Field "padding" (VObj (literal [
      Field "left" (VNum 8);
      Field "right" (VNum 8)
    ]));
    Field "description" (VObj (literal [
      Field "margin" (VObj (literal [Field "left" (VNum 6); Field "top" (VNum 1)]));
      Spread (layerText layer [VStr "sans"; VStr "base"; VStr "variant";
                               VObj (literal [Field "size" (VStr "2xs")])])
    ]))
  ].

(** [tab.border], [tab.background] and [activePaneActiveTab.height]:
    property reads on the records built above. *)
Definition activePaneActiveTab (elevation : Elevation) (tab : Obj) : Obj :=
  literal [
    Spread tab;
    Field "background" (background (top elevation) []);
    Field "text" (VObj (layerText (top elevation)
                          [VStr "sans"; VObj (literal [Field "size" (VStr "sm")])]));
    Field "border" (VObj (literal [
      Spread (fields_of (prop "border" tab));
      Field "bottom" (VBool false)
    ]))
  ].

Definition inactivePaneInactiveTab (layer : Layer) (tab : Obj) : Obj :=
  literal [
    Spread tab;
    Field "background" (background layer []);
    Field "text" (VObj (layerText layer [VStr "sans"; VObj (literal [Field "size" (VStr "sm")])]))
  ].

Definition inactivePaneActiveTab (layer : Layer) (tab : Obj) : Obj :=
  literal [
    Spread tab;
    Field "background" (background layer []);
    Field "text" (VObj (layerText layer [VStr "sans"; VStr "base"; VStr "variant";
                                          VObj (literal [Field "size" (VStr "sm")])]));
    Field "border" (VObj (literal [
      Spread (fields_of (prop "border" tab));
      Field "bottom" (VBool false)
    ]))
  ].

Definition draggedTab (elevation : Elevation) (tab activeTab : Obj) : Obj :=
  literal [
    Spread activeTab;
    Field "background" (withOpacityValue (prop "background" tab) 0.8);
    Field "border" (VObj (literal [
      Spread (fields_of (prop "border" tab));
      Field "top" (VBool false);
      Field "left" (VBool false);
      Field "right" (VBool false);
      Field "bottom" (VBool false)
    ]));
    Field "shadow" (above_shadow elevation)
  ].

(** [tabBar(colorScheme)] *)
Definition tabBar (colorScheme : ColorScheme) : Obj :=
  let height := VNum 32 in
  let elevation := lowest colorScheme in
  let layer := middle elevation in
  let tab := tabBar_tab layer in
  let activeTab := activePaneActiveTab elevation tab in
  literal [
    Field "height" height;
    Field "background" (background layer []);
    Field "dropTargetOverlayColor" (withOpacityValue (foreground layer []) 0.6);
    Field "border" (VObj (layerBorder (top (lowest colorScheme)) [VObj (literal [
      Field "left" (VBool true);
      Field "bottom" (VBool true);
      Field "overlay" (VBool true)
    ])]));
    Field "activePane" (VObj (literal [
      Field "activeTab" (VObj activeTab);
      Field "inactiveTab" (VObj tab)
    ]));
    Field "inactivePane" (VObj (literal [
      Field "activeTab" (VObj (inactivePaneActiveTab layer tab));
      Field "inactiveTab" (VObj (inactivePaneInactiveTab layer tab))
    ]));
    Field "draggedTab" (VObj (draggedTab elevation tab activeTab));
    Field "paneButton" (VObj (literal [
      Field "color" (foreground layer []);
      Field "border" (VObj (literal [Spread (fields_of (prop "border" tab))]));
      Field "iconWidth" (VNum 12);
      Field "buttonWidth" (prop "height" activeTab);
      Field "hover" (VObj (literal [
        Field "color" (foreground layer [VStr "base"; VStr "hovered"])
      ]))
    ]))
  ].
End Layers.

(* ================================================================= *)
(** ** The workspace ([workspace])

    [workspace] styles the layers of a colour scheme through the same
    helpers and [borderColor].  Its colour scheme holds layers, not
    elevations; [statusBar] and [tabBar], called on that colour scheme,
    are imported: functions of the colour scheme. *)

Section Workspace.
Variable Layer : Type.

(** What [workspace] reads of its colour scheme: the layers [lowest],
    [middle] and [highest], [popoverShadow] and [modalShadow]. *)
Record WorkspaceScheme : Type := {
  lowestLayer : Layer;
  middleLayer : Layer;
  highestLayer : Layer;
  popoverShadow : Value;
  modalShadow : Value;
}.

Variable background foreground layerBorderColor : Layer → list Value → Value.
Variable layerBorder layerText : Layer → list Value → Obj.
Variable withOpacityValue : Value → Q → Value.
Variable statusBarTree tabBarTree : WorkspaceScheme → Value.

(** The [titlebarButton] constant of [workspace]. *)
Definition titlebarButton (layer : Layer) : Obj :=
  literal [
    Field "cornerRadius" (VNum 6);
    Field "padding" (VObj (literal [
      Field "top" (VNum 1);
      Field "bottom" (VNum 1);
      Field "left" (VNum 8);
      Field "right" (VNum 8)
    ]));
    Spread (layerText layer [VStr "sans"; VStr "variant";
                             VObj (literal [Field "size" (VStr "xs")])]);
    Field "background" (background layer [VStr "variant"]);
    Field "border" (VObj (layerBorder layer []));
    Field "hover" (VObj (literal [
      Spread (layerText layer [VStr "sans"; VStr "variant"; VStr "hovered";
                               VObj (literal [Field "size" (VStr "xs")])]);
      Field "background" (background layer [VStr "variant"; VStr "hovered"]);
      Field "border" (VObj (layerBorder layer [VStr "variant"; VStr "hovered"]))
    ]))
  ].

(** [workspace(colorScheme)]; [avatarWidth / 2] is the number 9. *)
Definition workspace (colorScheme : WorkspaceScheme) : Obj :=
  let layer := lowestLayer colorScheme in
  let titlebarPadding := VNum 6 in
  let titlebarButton := titlebarButton layer in
  let avatarWidth := 18%Q in
  literal [
    Field "background" (background layer []);
    Field "joiningProjectAvatar" (VObj (literal [
      Field "cornerRadius" (VNum 40);
      Field "width" (VNum 80)
    ]));
    Field "joiningProjectMessage" (VObj (literal [
      Field "padding" (VNum 12);
      Spread (layerText layer [VStr "sans"; VObj (literal [Field "size" (VStr "lg")])])
    ]));
    Field "externalLocationMessage" (VObj (literal [
      Field "background" (background (middleLayer colorScheme) [VStr "accent"]);
      Field "border" (VObj (layerBorder (middleLayer colorScheme) [VStr "accent"]));
      Field "cornerRadius" (VNum 6);
      Field "padding" (VNum 12);
      Field "margin" (VObj (literal [Field "bottom" (VNum 8); Field "right" (VNum 8)]));
      Spread (layerText (middleLayer colorScheme)
                [VStr "sans"; VStr "accent"; VObj (literal [Field "size" (VStr "xs")])])
    ]));
    Field "leaderBorderOpacity" (VNum 0.7);
    Field "leaderBorderWidth" (VNum 2);
    Field "tabBar" (tabBarTree colorScheme);
    Field "modal" (VObj (literal [
      Field "margin" (VObj (literal [Field "bottom" (VNum 52); Field "top" (VNum 52)]));
      Field "cursor" (VStr "Arrow")
    ]));
    Field "sidebar" (VObj (literal [
      Field "initialSize" (VNum 240);
      Field "border" (VObj (layerBorder layer [VObj (literal [
        Field "left" (VBool true); Field "right" (VBool true)])]))
    ]));
    Field "paneDivider" (VObj (literal [
      Field "color" (layerBorderColor layer []);
      Field "width" (VNum 1)
    ]));
    Field "statusBar" (statusBarTree colorScheme);
    Field "titlebar" (VObj (literal [
      Field "avatarWidth" (VNum avatarWidth);
      Field "avatarMargin" (VNum 8);
      Field "height" (VNum 33);
      Field "background" (background layer []);
      Field "border" (VObj (layerBorder layer [VObj (literal [
        Field "bottom" (VBool true); Field "overlay" (VBool true)])]));
      Field "padding" (VObj (literal [
        Field "left" (VNum 80);
        Field "right" titlebarPadding
      ]));
      Field "title" (VObj (layerText layer [VStr "sans"; VStr "variant"]));
      Field "avatar" (VObj (literal [
        Field "cornerRadius" (VNum (Qred (avatarWidth / 2)));
        Field "border" (VObj (literal [
          Field "color" (VStr "#00000088");
          Field "width" (VNum 1)
        ]))
      ]));
      Field "inactiveAvatar" (VObj (literal [
        Field "cornerRadius" (VNum (Qred (avatarWidth / 2)));
        Field "border" (VObj (literal [
          Field "color" (VStr "#00000088");
          Field "width" (VNum 1)
        ]));
        Field "grayscale" (VBool true)
      ]));
      Field "avatarRibbon" (VObj (literal [
        Field "height" (VNum 3);
        Field "width" (VNum 12)
      ]));
      Field "signInPrompt" (VObj (literal [Spread titlebarButton]));
      Field "offlineIcon" (VObj (literal [
        Field "color" (foreground layer [VStr "variant"]);
        Field "width" (VNum 16);
        Field "margin" (VObj (literal [Field "left" titlebarPadding]));
        Field "padding" (VObj (literal [Field "right" (VNum 4)]))
      ]));
      Field "outdatedWarning" (VObj (literal [
        Spread (layerText layer [VStr "sans"; VStr "warning";
                                 VObj (literal [Field "size" (VStr "xs")])]);
        Field "background" (withOpacityValue (background layer [VStr "warning"]) 0.3);
        Field "border" (VObj (layerBorder layer [VStr "warning"]));
        Field "margin" (VObj (literal [Field "left" titlebarPadding]));
        Field "padding" (VObj (literal [Field "left" (VNum 8); Field "right" (VNum 8)]));
        Field "cornerRadius" (VNum 6)
      ]));
      Field "callControl" (VObj (literal [
        Field "cornerRadius" (VNum 6);
        Field "color" (foreground layer [VStr "variant"]);
        Field "iconWidth" (VNum 12);
        Field "buttonWidth" (VNum 20);
        Field "hover" (VObj (literal [
          Field "background" (background layer [VStr "variant"; VStr "hovered"]);
          Field "color" (foreground layer [VStr "variant"; VStr "hovered"])
        ]))
      ]));
      Field "toggleContactsButton" (VObj (literal [
        Field "margin" (VObj (literal [Field "left" (VNum 6)]));
        Field "cornerRadius" (VNum 6);
        Field "color" (foreground layer [VStr "variant"]);
        Field "iconWidth" (VNum 8);
        Field "buttonWidth" (VNum 20);
        Field "active" (VObj (literal [
          Field "background" (background layer [VStr "variant"; VStr "active"]);
          Field "color" (foreground layer [VStr "variant"; VStr "active"])
        ]));
        Field "hover" (VObj (literal [
          Field "background" (background layer [VStr "variant"; VStr "hovered"]);
          Field "color" (foreground layer [VStr "variant"; VStr "hovered"])
        ]))
      ]));
      Field "toggleContactsBadge" (VObj (literal [
        Field "cornerRadius" (VNum 3);
        Field "padding" (VNum 2);
        Field "margin" (VObj (literal [Field "top" (VNum 3); Field "left" (VNum 3)]));
        Field "border" (VObj (layerBorder layer []));
        Field "background" (foreground layer [VStr "accent"])
      ]));
      Field "shareButton" (VObj (literal [Spread titlebarButton]))
    ]));
    Field "toolbar" (VObj (literal [
      Field "height" (VNum 34);
      Field "background" (background (highestLayer colorScheme) []);
      Field "border" (VObj (layerBorder (highestLayer colorScheme) [VObj (literal [
        Field "bottom" (VBool true)])]));
      Field "itemSpacing" (VNum 8);
      Field "navButton" (VObj (literal [
        Field "color" (foreground (highestLayer colorScheme) [VStr "on"]);
        Field "iconWidth" (VNum 12);
        Field "buttonWidth" (VNum 24);
        Field "cornerRadius" (VNum 6);
        Field "hover" (VObj (literal [
          Field "color" (foreground (highestLayer colorScheme) [VStr "on"; VStr "hovered"]);
          Field "background" (background (highestLayer colorScheme) [VStr "on"; VStr "hovered"])
        ]));
        Field "disabled" (VObj (literal [
          Field "color" (foreground (highestLayer colorScheme) [VStr "on"; VStr "disabled"])
        ]))
      ]));
      Field "padding" (VObj (literal [
        Field "left" (VNum 8); Field "right" (VNum 8);
        Field "top" (VNum 4); Field "bottom" (VNum 4)]))
    ]));
    Field "breadcrumbs" (VObj (literal [
      Spread (layerText layer [VStr "mono"; VStr "variant"]);
      Field "padding" (VObj (literal [Field "left" (VNum 6)]))
    ]));
    Field "disconnectedOverlay" (VObj (literal [
      Spread (layerText layer [VStr "sans"]);
      Field "background" (withOpacityValue (background layer []) 0.8)
    ]));
    Field "notification" (VObj (literal [
      Field "margin" (VObj (literal [Field "top" (VNum 10)]));
      Field "background" (background (middleLayer colorScheme) []);
      Field "cornerRadius" (VNum 6);
      Field "padding" (VNum 12);
      Field "border" (VObj (layerBorder (middleLayer colorScheme) []));
      Field "shadow" (popoverShadow colorScheme)
    ]));
    Field "notifications" (VObj (literal [
      Field "width" (VNum 400);
      Field "margin" (VObj (literal [Field "right" (VNum 10); Field "bottom" (VNum 10)]))
    ]));
    Field "dock" (VObj (literal [
      Field "initialSizeRight" (VNum 640);
      Field "initialSizeBottom" (VNum 480);
      Field "wash_color" (withOpacityValue (background (highestLayer colorScheme) []) 0.5);
      Field "panel" (VObj (literal [
        Field "border" (VObj (layerBorder (highestLayer colorScheme) []))
      ]));
      Field "maximized" (VObj (literal [
        Field "margin" (VNum 32);
        Field "border" (VObj (layerBorder (highestLayer colorScheme) [VObj (literal [
          Field "overlay" (VBool true)])]));
        Field "shadow" (modalShadow colorScheme)
      ]))
    ]));
    Field "dropTargetOverlayColor"
      (withOpacityValue (foreground layer [VStr "variant"]) 0.5)
  ].
End Workspace.

(* ================================================================= *)
(** ** Sample token tables

    Instances of the declarations the sources import, to run the code
    on. *)

Definition sample_core : Core := {|
  fontFamily := fun f => VStr f;
  fontSize := fun k =>
    {| value := if String.eqb k "sm" then 14%Q else 16%Q; type := "number" |};
|}.

Definition sample_withOpacity (c : ColorToken) (alpha : Q) : ColorToken := c.

Definition sample_buildPlayer (c : ColorToken) : PlayerToken :=
  {| cursorColor := c; selectionColor := c |}.

Definition sample_weight (w : Q) : NumberToken :=
  {| value := w; type := "number" |}.

Definition cave_dark : Theme :=
  cave sample_withOpacity sample_buildPlayer (sample_weight 400) (sample_weight 700) true.

Definition cave_light : Theme :=
  cave sample_withOpacity sample_buildPlayer (sample_weight 400) (sample_weight 700) false.

Definition sample_iconColor (theme : Theme) (c : TextColor) : Value :=
  VStr (value (iconColor_ theme c)).

(** Helpers over layers to run [tabBar] with: a layer is [tt], a colour
    is named after the arguments of the call, and [border] returns the
    options it is given on top of a colour and a width. *)
Definition sample_background (layer : unit) (args : list Value) : Value :=
  match args with
  | VStr style :: _ => VStr style
  | _ => VStr "base"
  end.

Definition sample_layerBorder (layer : unit) (args : list Value) : Obj :=
  literal [
    Field "color" (VStr "#000000");
    Field "width" (VNum 1);
    Spread (fields_of (List.last args VUndefined))
  ].

Definition sample_withOpacityValue (c : Value) (alpha : Q) : Value := c.

Definition sample_elevation : Elevation unit := {|
  middle := tt;
  top := tt;
  shadow := VUndefined;
  above_shadow := VUndefined;
  ramps_neutral_highlight := VStr "#80808033";
|}.

Definition sample_scheme : WorkspaceScheme unit := {|
  lowestLayer := tt;
  middleLayer := tt;
  highestLayer := tt;
  popoverShadow := VUndefined;
  modalShadow := VUndefined;
|}.

(** Imported functions to run the generation loop with: a tree is printed
    as the list of its top-level keys, a path resolves to itself, [app]
    is the editor alone, or the editor for the dark [cave] and
    [projectDiagnostics] (which throws) for any other theme. *)
Definition sample_stringify (v : Value) : string :=
  String.concat "," (map fst (fields_of v)).

Definition sample_app (theme : Theme) : JS Value :=
  tree ← editor sample_core sample_iconColor theme;
  mret (VObj (literal [Field "editor" (VObj tree)])).

Definition sample_app_dark (theme : Theme) : JS Value :=
  if String.eqb (name theme) "cave-dark" then sample_app theme
  else tree ← projectDiagnostics sample_core theme; mret (VObj tree).

(* ================================================================= *)
(** * Properties *)

(** ** Object literals *)

Lemma get_set_eq k v o : get k (set k v o) = Some v.
Proof.
  induction o as [|[k' v'] o IH]; simpl.
  - by rewrite String.eqb_refl.
  - destruct (String.eqb k k') eqn:E; simpl; rewrite E; auto.
Qed.

Lemma get_set_ne k k' v o : k ≠ k' → get k' (set k v o) = get k' o.
Proof.
  intros Hne. induction o as [|[k1 v1] o IH]; simpl.
  - destruct (String.eqb k' k) eqn:E; [|done].
    apply String.eqb_eq in E. congruence.
  - destruct (String.eqb k k1) eqn:E; simpl.
    + apply String.eqb_eq in E. subst k1.
      destruct (String.eqb k' k) eqn:E'; [|done].
      apply String.eqb_eq in E'. congruence.
    + by rewrite IH.
Qed.

Lemma sizeKey_md size family :
  sizeKey size family = "md" ↔ truthy size = false ∧ family ≠ "sans".
Proof.
  unfold sizeKey. destruct (truthy size); simpl.
  - split; [discriminate | intros [? _]; discriminate].
  - destruct (String.eqb family "sans") eqn:E.
    + apply String.eqb_eq in E. split; [discriminate | intros [_ ?]; done].
    + apply String.eqb_neq in E. done.
Qed.

Lemma text_with_properties core theme family c properties :
  ∃ style,
    text core theme family c (Some properties) = Ok style
    ∧ get "size" style
      = Some (VNum (value (fontSize core (sizeKey (prop "size" properties) family)))).
Proof.
  eexists. split; [reflexivity|].
  unfold literal. cbn [fold_left]. unfold assign at 1.
  apply get_set_eq.
Qed.

(** ** The [text] helper *)

(** C8: when [properties.size] is truthy, the [size] of the record that
    [text] returns is the value of the ["sm"] font-size token, whatever
    size was asked for; whatever the arguments, the size is that of the
    key [(properties.size || fontFamily === "sans") ? "sm" : "md"], and
    that key is ["md"] exactly when [properties.size] is falsy and the
    family is not ["sans"]. *)
Theorem text_truthy_size_is_sm core theme family c properties :
  truthy (prop "size" properties) = true →
  ∃ style,
    text core theme family c (Some properties) = Ok style
    ∧ get "size" style = Some (VNum (value (fontSize core "sm")))
    ∧ (∀ family' c' properties',
         ∃ style',
           text core theme family' c' (Some properties') = Ok style'
           ∧ get "size" style'
             = Some (VNum (value (fontSize core
                                    (sizeKey (prop "size" properties') family'))))
           ∧ (sizeKey (prop "size" properties') family' = "md"
              ↔ truthy (prop "size" properties') = false ∧ family' ≠ "sans")).
Proof.
  intros Htruthy.
  destruct (text_with_properties core theme family c properties) as (style & Hs & Hsize).
  exists style. split; [done|]. split.
  - rewrite Hsize. unfold sizeKey. by rewrite Htruthy.
  - intros family' c' properties'.
    destruct (text_with_properties core theme family' c' properties')
      as (style' & Hs' & Hsize').
    exists style'. split; [done|]. split; [done|]. apply sizeKey_md.
Qed.

Lemma text_truthy_size_is_sm_witness :
  truthy (prop "size" (literal [Field "size" (VStr "lg")])) = true
  ∧ ∃ style,
      text sample_core cave_dark "mono" muted
        (Some (literal [Field "size" (VStr "lg")])) = Ok style
      ∧ get "size" style = Some (VNum 14).
Proof.
  split; [reflexivity|].
  destruct (text_truthy_size_is_sm sample_core cave_dark "mono" muted
              (literal [Field "size" (VStr "lg")]) eq_refl)
    as (style & Hs & Hsize & _).
  exists style. split; [exact Hs | exact Hsize].
Defined.

(** C9: [text] called without [properties] reads [properties.size] on
    [undefined] and throws; it returns no style record.  The call sites
    that omit the argument ([diagnosticHeader] of the editor,
    [projectDiagnostics] of [app]) throw with it. *)
Theorem text_without_properties_throws core theme family c :
  text core theme family c None
  = Err (TypeError "Cannot read properties of undefined (reading 'size')")
  ∧ is_ok (text core theme family c None) = false
  ∧ is_ok (diagnosticHeader core theme) = false
  ∧ is_ok (projectDiagnostics core theme) = false.
Proof. repeat split. Qed.

(** ** The editor's selections *)

(** When no initialiser throws, the literal is the one built from the
    values. *)
Lemma literalM_pure ms : literalM (map pureM ms) = Ok (literal ms).
Proof.
  unfold literalM, literal. generalize (@nil (string * Value)).
  induction ms as [|m ms IH]; intros acc; [done|].
  simpl. rewrite <- IH. by destruct m.
Qed.


(** The older editor returns no record with the helpers of the sources: the
    background state ["hover"] of [hoveredItem] is not in the tables of a
    theme, and [text] is called without [properties] further on. *)
Lemma editor_007_throws core iconColor theme :
  editor_007 core iconColor theme
  = Err (TypeError "Cannot read properties of undefined (reading 'value')").
Proof. reflexivity. Qed.



(** ** Positions and breakpoints *)

Lemma Qle_bool_false a b : Qle_bool a b = false ↔ (b < a)%Q.
Proof.
  split.
  - intros H. apply Qnot_le_lt. intros Hle. apply Qle_bool_iff in Hle. congruence.
  - intros H. destruct (Qle_bool a b) eqn:E; [|done].
    apply Qle_bool_iff in E. exfalso. by apply (Qlt_not_le b a).
Qed.

Lemma Qlt_bool_iff a b : Qlt_bool a b = true ↔ (a < b)%Q.
Proof.
  unfold Qlt_bool. rewrite negb_true_iff. apply Qle_bool_false.
Qed.

Lemma Qnat_S n : (Qnat (S n) == Qnat n + 1)%Q.
Proof.
  unfold Qnat. rewrite Nat2Z.inj_succ, <- Z.add_1_r, inject_Z_plus. reflexivity.
Qed.

Lemma Qnat_pos n : 0 < n → (0 < Qnat n)%Q.
Proof.
  intros H. unfold Qnat. change 0%Q with (inject_Z 0). rewrite <- Zlt_Qlt. lia.
Qed.

Lemma Qnat_le n m : n ≤ m → (Qnat n <= Qnat m)%Q.
Proof. intros H. unfold Qnat. rewrite <- Zle_Qle. lia. Qed.

(** In a strictly increasing list every later element is above the head. *)
Lemma strictly_increasing_above a l i b :
  strictly_increasing (a :: l) = true → l !! i = Some b → (a < b)%Q.
Proof.
  revert a i. induction l as [|c l IH]; intros a i Hs Hl; [done|].
  simpl in Hs. apply andb_true_iff in Hs as [Hac Hs].
  apply Qlt_bool_iff in Hac.
  destruct i as [|i]; simpl in Hl.
  - by inversion Hl; subst.
  - eapply Qlt_trans; [exact Hac|]. by eapply IH.
Qed.

Lemma strictly_increasing_tail a l :
  strictly_increasing (a :: l) = true → strictly_increasing l = true.
Proof.
  destruct l as [|b l]; [done|]. simpl. intros H.
  by apply andb_true_iff in H as [_ H].
Qed.

(** The check of adjacent breakpoints decides the property of all pairs. *)
Lemma strictly_increasing_sound d :
  strictly_increasing d = true → breakpoints_increase d.
Proof.
  induction d as [|a d IH]; intros Hs i j x y Hij Hi Hj; [done|].
  destruct j as [|j]; [lia|]. simpl in Hj.
  destruct i as [|i]; simpl in Hi.
  - inversion Hi; subst. by eapply strictly_increasing_above.
  - eapply (IH (strictly_increasing_tail _ _ Hs) i j); [lia|done..].
Qed.

Lemma strictly_increasing_complete d :
  breakpoints_increase d → strictly_increasing d = true.
Proof.
  induction d as [|a d IH]; intros Hd; [done|].
  destruct d as [|b d]; [done|].
  change (Qlt_bool a b && strictly_increasing (b :: d) = true).
  apply andb_true_iff. split.
  - apply Qlt_bool_iff. apply (Hd 0 1); [lia|done|done].
  - apply IH. intros i j x y Hij Hi Hj. apply (Hd (S i) (S j)); [lia|done..].
Qed.

Lemma in_unit_interval_Forall d :
  in_unit_interval d = true ↔ Forall (fun x => (0 <= x)%Q ∧ (x <= 1)%Q) d.
Proof.
  unfold in_unit_interval. rewrite forallb_forall, Forall_forall.
  split; intros H x Hx.
  - apply list_elem_of_In in Hx. specialize (H x Hx).
    apply andb_true_iff in H as [H0 H1]. split; by apply Qle_bool_iff.
  - apply list_elem_of_In in Hx. destruct (H x Hx) as [H0 H1].
    apply andb_true_iff. split; by apply Qle_bool_iff.
Qed.

Lemma locate_cons i a b d t :
  locate i (a :: b :: d) t
  = if Qle_bool t a then Qnat i
    else if Qle_bool t b then (Qnat i + (t - a) / (b - a))%Q
    else locate (S i) (b :: d) t.
Proof. reflexivity. Qed.

(** A position is located between the first and the last breakpoint. *)
Lemma locate_lower d : ∀ j t,
  strictly_increasing d = true → (Qnat j <= locate j d t)%Q.
Proof.
  induction d as [|a d IH]; intros j t Hs; [apply Qle_refl|].
  destruct d as [|b d]; [apply Qle_refl|].
  rewrite locate_cons.
  assert (Hab : (a < b)%Q) by by apply (strictly_increasing_above a (b :: d) 0 b).
  destruct (Qle_bool t a) eqn:Hta; [apply Qle_refl|].
  apply Qle_bool_false in Hta.
  destruct (Qle_bool t b) eqn:Htb.
  - assert (0 <= (t - a) / (b - a))%Q; [|lra].
    apply Qle_shift_div_l; lra.
  - eapply Qle_trans; [|apply IH, (strictly_increasing_tail _ _ Hs)].
    rewrite Qnat_S. lra.
Qed.

Lemma locate_upper d : ∀ j t,
  strictly_increasing d = true → (locate j d t <= Qnat (j + (length d - 1)))%Q.
Proof.
  induction d as [|a d IH]; intros j t Hs.
  - simpl. rewrite Nat.add_0_r. apply Qle_refl.
  - destruct d as [|b d].
    + simpl. rewrite Nat.add_0_r. apply Qle_refl.
    + rewrite locate_cons.
      assert (Hab : (a < b)%Q) by by apply (strictly_increasing_above a (b :: d) 0 b).
      destruct (Qle_bool t a) eqn:Hta; [apply Qnat_le; lia|].
      apply Qle_bool_false in Hta.
      destruct (Qle_bool t b) eqn:Htb.
      * apply Qle_bool_iff in Htb.
        apply Qle_trans with (Qnat (S j)); [|apply Qnat_le; simpl; lia].
        rewrite Qnat_S.
        assert ((t - a) / (b - a) <= 1)%Q; [|lra].
        apply Qle_shift_div_r; lra.
      * eapply Qle_trans; [apply IH, (strictly_increasing_tail _ _ Hs)|].
        apply Qnat_le. simpl. lia.
Qed.

(** Locating keeps the order of positions. *)
Lemma locate_mono d : ∀ j s t,
  strictly_increasing d = true → (s <= t)%Q → (locate j d s <= locate j d t)%Q.
Proof.
  induction d as [|a d IH]; intros j s t Hs Hst; [apply Qle_refl|].
  destruct d as [|b d]; [apply Qle_refl|].
  assert (Hab : (a < b)%Q) by by apply (strictly_increasing_above a (b :: d) 0 b).
  pose proof (strictly_increasing_tail _ _ Hs) as Hs'.
  rewrite !locate_cons.
  destruct (Qle_bool s a) eqn:Hsa.
  - rewrite <- (locate_cons j a b d t). by apply locate_lower.
  - apply Qle_bool_false in Hsa.
    assert (Qle_bool t a = false) as -> by (apply Qle_bool_false; lra).
    destruct (Qle_bool s b) eqn:Hsb.
    + apply Qle_bool_iff in Hsb.
      destruct (Qle_bool t b) eqn:Htb.
      * apply Qle_bool_iff in Htb.
        assert ((s - a) / (b - a) <= (t - a) / (b - a))%Q; [|lra].
        unfold Qdiv. apply Qmult_le_compat_r; [lra|].
        apply Qlt_le_weak, Qinv_lt_0_compat. lra.
      * apply Qle_trans with (Qnat (S j)); [|by apply locate_lower].
        rewrite Qnat_S.
        assert ((s - a) / (b - a) <= 1)%Q; [|lra].
        apply Qle_shift_div_r; lra.
    + apply Qle_bool_false in Hsb.
      assert (Qle_bool t b = false) as -> by (apply Qle_bool_false; lra).
      by apply IH.
Qed.

(** Between two consecutive breakpoints the position is located linearly. *)
Lemma locate_segment d : ∀ j i a b t,
  strictly_increasing d = true →
  d !! i = Some a → d !! S i = Some b → (a <= t)%Q → (t <= b)%Q →
  (locate j d t == Qnat (j + i) + (t - a) / (b - a))%Q.
Proof.
  induction d as [|a0 d IH]; intros j i a b t Hs Ha Hb Hat Htb; [done|].
  destruct d as [|b0 d]; [done|].
  assert (Hab0 : (a0 < b0)%Q) by by apply (strictly_increasing_above a0 (b0 :: d) 0 b0).
  pose proof (strictly_increasing_tail _ _ Hs) as Hs'.
  rewrite locate_cons.
  destruct i as [|i]; simpl in Ha, Hb.
  - inversion Ha; inversion Hb; subst. rewrite Nat.add_0_r.
    destruct (Qle_bool t a) eqn:Hta.
    + apply Qle_bool_iff in Hta. assert (Ht : (t == a)%Q) by lra.
      rewrite Ht. assert (~ (b - a == 0)%Q) by lra. field. done.
    + assert (Qle_bool t b = true) as -> by by apply Qle_bool_iff.
      reflexivity.
  - assert (Hba : (b0 <= a)%Q).
    { destruct i as [|i]; simpl in Ha.
      - inversion Ha; subst. apply Qle_refl.
      - apply Qlt_le_weak. by apply (strictly_increasing_above b0 d i a). }
    assert (Hab : (a < b)%Q).
    { by apply (strictly_increasing_sound _ Hs' i (S i) a b); [lia|..]. }
    assert (Qle_bool t a0 = false) as -> by (apply Qle_bool_false; lra).
    destruct (Qle_bool t b0) eqn:Htb0.
    + apply Qle_bool_iff in Htb0.
      destruct i as [|i]; simpl in Ha.
      * inversion Ha; subst. assert (Ht : (t == a)%Q) by lra.
        rewrite Ht, Nat.add_1_r, Qnat_S.
        assert (~ (a - a0 == 0)%Q) by lra. assert (~ (b - a == 0)%Q) by lra.
        field. done.
      * pose proof (strictly_increasing_above b0 d i a Hs' Ha). lra.
    + rewrite (IH (S j) i a b t Hs' Ha Hb Hat Htb).
      by rewrite Nat.add_succ_r.
Qed.

Lemma valid_domain_inv d :
  valid_domain d = true →
  2 ≤ length d ∧ strictly_increasing d = true
  ∧ Forall (fun x => (0 <= x)%Q ∧ (x <= 1)%Q) d.
Proof.
  unfold valid_domain. intros H.
  apply andb_true_iff in H as [H Hu]. apply andb_true_iff in H as [Hlen Hs].
  split; [by apply Nat.leb_le|]. split; [done|]. by apply in_unit_interval_Forall.
Qed.

Lemma remap_range d t :
  valid_domain d = true → (0 <= remap d t)%Q ∧ (remap d t <= 1)%Q.
Proof.
  intros (Hlen & Hs & _)%valid_domain_inv. unfold remap.
  assert (Hn : (0 < Qnat (length d - 1))%Q) by (apply Qnat_pos; lia).
  pose proof (locate_lower d 0 t Hs) as Hlo.
  pose proof (locate_upper d 0 t Hs) as Hup.
  change (Qnat 0) with 0%Q in Hlo. simpl in Hup.
  split.
  - apply Qle_shift_div_l; [done|]. lra.
  - apply Qle_shift_div_r; [done|]. lra.
Qed.

Lemma remap_mono d s t :
  valid_domain d = true → (s <= t)%Q → (remap d s <= remap d t)%Q.
Proof.
  intros (Hlen & Hs & _)%valid_domain_inv Hst. unfold remap, Qdiv.
  apply Qmult_le_compat_r; [by apply locate_mono|].
  apply Qlt_le_weak, Qinv_lt_0_compat, Qnat_pos. lia.
Qed.

Lemma remap_segment d i a b t :
  valid_domain d = true →
  d !! i = Some a → d !! S i = Some b → (a <= t)%Q → (t <= b)%Q →
  (remap d t == (Qnat i + (t - a) / (b - a)) / Qnat (length d - 1))%Q.
Proof.
  intros (Hlen & Hs & _)%valid_domain_inv Ha Hb Hat Htb. unfold remap.
  by rewrite (locate_segment d 0 i a b t Hs Ha Hb Hat Htb).
Qed.

Lemma clamp01_inside x : (0 <= x)%Q → (x <= 1)%Q → (clamp01 x == x)%Q.
Proof.
  intros H0 H1. unfold clamp01.
  destruct (Qle_bool x 0) eqn:Hx0.
  - apply Qle_bool_iff in Hx0. lra.
  - destruct (Qle_bool 1 x) eqn:Hx1; [|reflexivity].
    apply Qle_bool_iff in Hx1. lra.
Qed.

(** Interpolation depends on the position, not on how the rational is
    written, when the mixing of two colours does. *)
Lemma interpolate_proper {C} (mix : C → C → Q → C) seedColors u v :
  (∀ a b s t, (s == t)%Q → mix a b s = mix a b t) →
  (u == v)%Q → interpolate mix seedColors u = interpolate mix seedColors v.
Proof.
  intros Hmix Huv. unfold interpolate.
  assert (Hx : (u * Qnat (length seedColors - 1)
                == v * Qnat (length seedColors - 1))%Q) by by rewrite Huv.
  rewrite (Qfloor_comp _ _ Hx).
  destruct (seedColors !! _) as [a|]; [|done].
  destruct (seedColors !! _) as [b|]; [|done].
  f_equal. apply Hmix. by rewrite Hx.
Qed.

(** A ramp with a domain samples as the ramp without one does at the
    re-mapped position. *)
Lemma sample_remapped {C} (mix : C → C → Q → C) seedColors d position :
  (∀ a b s t, (s == t)%Q → mix a b s = mix a b t) →
  valid_domain d = true →
  sample mix {| seeds := seedColors; domain := Some d |} position
  = sample mix {| seeds := seedColors; domain := None |}
      (remap d (clamp01 position)).
Proof.
  intros Hmix Hv. unfold sample. simpl.
  apply interpolate_proper; [done|].
  destruct (remap_range d (clamp01 position) Hv) as [H0 H1].
  symmetry. by apply clamp01_inside.
Qed.

Lemma buildRamp_Some_inv {C} (seedColors : list C) d r :
  buildRamp seedColors (Some d) = Ok r →
  2 ≤ length seedColors ∧ valid_domain d = true
  ∧ r = {| seeds := seedColors; domain := Some d |}.
Proof.
  unfold buildRamp. destruct (length seedColors <? 2) eqn:Hlen; [done|].
  apply Nat.ltb_ge in Hlen.
  destruct (valid_domain d) eqn:Hv; [|done]. intros H. by inversion H.
Qed.

(** ** The domains of the themes' ramps *)

(** C3, as stated, fails: the second [rose-pine-dawn] remaps its 8
    neutral seeds through a domain of 3 breakpoints. *)
Lemma short_domain :
  ("neutral",
   chroma_scale
     ["#575279"; "#797593"; "#9893A5"; "#B5AFB8";
      "#D3CCCC"; "#F2E9E1"; "#FFFAF3"; "#FAF4ED"]
     (Some [0; 0.73; 1]%Q)) ∈ ramps rose_pine_dawn'
  ∧ rose_pine_dawn' ∈ ramp_themes
  ∧ ¬ (∀ role seedColors d,
         (role, chroma_scale seedColors (Some d)) ∈ ramp_calls →
         length d = length seedColors).
Proof.
  assert (Hin : ("neutral",
   chroma_scale
     ["#575279"; "#797593"; "#9893A5"; "#B5AFB8";
      "#D3CCCC"; "#F2E9E1"; "#FFFAF3"; "#FAF4ED"]
     (Some [0; 0.73; 1]%Q)) ∈ ramps rose_pine_dawn').
  { simpl. apply list_elem_of_here. }
  assert (Hth : rose_pine_dawn' ∈ ramp_themes).
  { unfold ramp_themes. rewrite ?elem_of_cons. tauto. }
  split; [done|]. split; [done|].
  intros H.
  enough (3 = 8) by lia.
  apply (H "neutral"
           ["#575279"; "#797593"; "#9893A5"; "#B5AFB8";
            "#D3CCCC"; "#F2E9E1"; "#FFFAF3"; "#FAF4ED"]
           [0; 0.73; 1]%Q).
  unfold ramp_calls. apply list_elem_of_In, in_flat_map.
  exists rose_pine_dawn'. split; by apply list_elem_of_In.
Qed.

(** C3, amended: every domain that a theme sets is a strictly increasing
    sequence of breakpoints in [0,1] with no more breakpoints than the
    scale has seed colours (8 for 8 in [summercamp] and in the first
    [rose-pine-dawn], 3 for 8 in the second), and the builder accepts it.
    The builder fails with [InvalidRampError] on a domain that is not
    strictly increasing, so the domain of every ramp it returns is strictly
    increasing and within [0,1].  Sampling such a ramp clamps the position,
    re-maps it through the domain and then interpolates between the seeds,
    as the ramp without a domain does at the re-mapped position; the
    re-mapping stays within [0,1], keeps the order of positions and is
    linear between two consecutive breakpoints, number [i] of [n] going to
    [i / (n - 1)]. *)
Theorem domain_remapping :
  (∀ role seedColors d,
     (role, chroma_scale seedColors (Some d)) ∈ ramp_calls →
     breakpoints_increase d
     ∧ Forall (fun x => (0 <= x)%Q ∧ (x <= 1)%Q) d
     ∧ length d ≤ length seedColors
     ∧ is_ok (buildRamp seedColors (Some d)) = true)
  ∧ (∀ (C : Type) (seedColors : list C) d,
       ¬ breakpoints_increase d →
       buildRamp seedColors (Some d) = Err InvalidRampError)
  ∧ (∀ (C : Type) (seedColors : list C) d,
       2 ≤ length seedColors → 2 ≤ length d →
       breakpoints_increase d →
       Forall (fun x => (0 <= x)%Q ∧ (x <= 1)%Q) d →
       buildRamp seedColors (Some d)
       = Ok {| seeds := seedColors; domain := Some d |})
  ∧ (∀ (C : Type) (mix : C → C → Q → C) (seedColors : list C) d r,
       buildRamp seedColors (Some d) = Ok r →
       breakpoints_increase d
       ∧ Forall (fun x => (0 <= x)%Q ∧ (x <= 1)%Q) d
       ∧ (∀ position,
            sample mix r position
            = interpolate mix seedColors (remap d (clamp01 position)))
       ∧ ((∀ a b s t, (s == t)%Q → mix a b s = mix a b t) →
          ∀ position,
            sample mix r position
            = sample mix {| seeds := seedColors; domain := None |}
                (remap d (clamp01 position)))
       ∧ (∀ t, (0 <= remap d t)%Q ∧ (remap d t <= 1)%Q)
       ∧ (∀ s t, (s <= t)%Q → (remap d s <= remap d t)%Q)
       ∧ (∀ i a b t,
            d !! i = Some a → d !! S i = Some b → (a <= t)%Q → (t <= b)%Q →
            (remap d t
             == (Qnat i + (t - a) / (b - a)) / Qnat (length d - 1))%Q)).
Proof.
  split; [|split; [|split]].
  - assert (Hall : Forall (fun rc => domain_fits rc.2 = true) ramp_calls).
    { unfold ramp_calls. simpl.
      repeat (apply Forall_cons_2; [reflexivity|]). apply Forall_nil_2. }
    intros role seedColors d Hin.
    rewrite Forall_forall in Hall. specialize (Hall _ Hin). simpl in Hall.
    apply andb_true_iff in Hall as [Hall Hlen].
    apply andb_true_iff in Hall as [Hs Hu].
    apply Nat.leb_le in Hlen.
    split; [by apply strictly_increasing_sound|].
    split; [by apply in_unit_interval_Forall|]. split; [done|].
    revert Hin. unfold ramp_calls. simpl. rewrite ?elem_of_cons, elem_of_nil.
    intros Hin.
    repeat (destruct Hin as [Hin|Hin];
            [first [discriminate Hin | by inversion Hin]|]).
    done.
  - intros C seedColors d Hd. unfold buildRamp, valid_domain.
    destruct (strictly_increasing d) eqn:Hs.
    + exfalso. by apply Hd, strictly_increasing_sound.
    + rewrite andb_false_r. simpl. by destruct (length seedColors <? 2).
  - intros C seedColors d Hseeds Hlen Hd Hu. unfold buildRamp, valid_domain.
    apply Nat.ltb_ge in Hseeds. rewrite Hseeds.
    apply Nat.leb_le in Hlen. rewrite Hlen.
    rewrite (strictly_increasing_complete d Hd).
    apply in_unit_interval_Forall in Hu. by rewrite Hu.
  - intros C mix seedColors d r (Hlen & Hv & ->)%buildRamp_Some_inv.
    pose proof (valid_domain_inv d Hv) as (_ & Hs & Hu).
    split; [by apply strictly_increasing_sound|]. split; [done|].
    split; [reflexivity|].
    split; [intros Hmix position; by apply sample_remapped|].
    split; [intros t; by apply remap_range|].
    split; [intros s t; by apply remap_mono|].
    intros i a b t. by apply remap_segment.
Qed.

Lemma domain_remapping_witness :
  buildRamp ["#000000"; "#808080"; "#ffffff"] (Some [0; 0.5; 0.3]%Q)
  = Err InvalidRampError
  ∧ buildRamp ["#000000"; "#808080"; "#ffffff"] (Some [0; 0.73; 1]%Q)
    = Ok {| seeds := ["#000000"; "#808080"; "#ffffff"];
            domain := Some [0; 0.73; 1]%Q |}
  ∧ (remap [0; 0.73; 1] 0.9
     == (Qnat 1 + (0.9 - 0.73) / (1 - 0.73)) / Qnat 2)%Q.
Proof.
  destruct domain_remapping as (_ & Hbad & Hgood & Hsample).
  split; [|split].
  - apply Hbad. intros H.
    specialize (H 1 2 0.5%Q 0.3%Q ltac:(lia) eq_refl eq_refl). lra.
  - apply Hgood; [simpl; lia | simpl; lia | |].
    + apply strictly_increasing_sound. reflexivity.
    + apply in_unit_interval_Forall. reflexivity.
  - destruct (Hsample string (fun a _ _ => a)
                ["#000000"; "#808080"; "#ffffff"] [0; 0.73; 1]%Q _ eq_refl)
      as (_ & _ & _ & _ & _ & _ & Hsegment).
    apply (Hsegment 1 0.73%Q 1%Q 0.9%Q); [reflexivity | reflexivity | lra | lra].
Defined.

(** ** The resolver *)






Lemma get_is_Some k o : is_Some (get k o) ↔ k ∈ map fst o.
Proof.
  induction o as [|[k' v'] o IH]; simpl.
  - split; [by intros [? ?] | by intros ?%elem_of_nil].
  - destruct (String.eqb k k') eqn:E.
    + apply String.eqb_eq in E. subst. split; [by left | eauto].
    + apply String.eqb_neq in E. rewrite IH, elem_of_cons.
      split; [by right | by intros [?|?]].
Qed.





(** *** The fuel of [resolve] is enough *)



(** *** What a successful resolution has visited *)









(** *** Which error *)










(** *** Overlay *)



Lemma overlay_onto_scalar inherited own :
  is_object inherited = false → overlay inherited own = own.
Proof. destruct inherited, own; done. Qed.










(** The resolved [search.invalidEditor] keeps the border it declares,
    colour and width, and takes everything else from [search.editor]. *)
Lemma search_invalidEditor_border :
  resolve search_tree
  = Ok (VObj [("search", VObj [("editor", VObj search_editor);
                              ("invalidEditor", search_invalidEditor_resolved)])])
  ∧ get "border" (fields_of search_invalidEditor_resolved)
    = Some (VObj [("color", VStr "$status.bad"); ("width", VNum 1)])
  ∧ get "border" search_editor
    = Some (VObj [("color", VStr "$border.primary"); ("width", VNum 1)]).
Proof. repeat split; vm_compute; reflexivity. Qed.

(** ** The generation loop *)

Lemma write_all_snoc fs ws kv :
  write_all fs (ws ++ [kv]) = <[kv.1 := kv.2]> (write_all fs ws).
Proof. unfold write_all. by rewrite fold_left_app. Qed.

(** A written path holds what the run wrote last; any other path is
    untouched. *)
Lemma write_all_lookup fs ws p :
  write_all fs ws !! p
  = match write_all ∅ ws !! p with Some v => Some v | None => fs !! p end.
Proof.
  induction ws as [|kv ws IH] using rev_ind; [done|].
  rewrite !write_all_snoc, !lookup_insert. case_decide; [done|]. exact IH.
Qed.

Lemma write_all_written ws p :
  is_Some (write_all ∅ ws !! p) ↔ p ∈ ws.*1.
Proof.
  induction ws as [|kv ws IH] using rev_ind.
  - simpl. rewrite lookup_empty, elem_of_nil. split; [by intros [? ?] | done].
  - rewrite write_all_snoc, lookup_insert, fmap_app, elem_of_app. simpl.
    rewrite list_elem_of_singleton. case_decide.
    + subst. split; [by right | eauto].
    + rewrite IH. split; [by left | by intros [?|?]].
Qed.

Section GenerateFacts.
Context (app : Theme → JS Value) (decamelizeTree : Value → Value)
  (stringify : Value → string) (path_resolve : string → string)
  (dirname : string).

Abbreviation generate := (generate app decamelizeTree stringify path_resolve dirname).
Abbreviation outputs := (outputs app decamelizeTree stringify path_resolve dirname).
Abbreviation styleTreeJSON := (styleTreeJSON app decamelizeTree stringify).

Lemma generate_outputs themes : ∀ w,
  generate themes w
  = ({| files := write_all (files w) (outputs themes);
        console := console w ++ map (fun kv => "Generated " +:+ kv.1) (outputs themes) |},
     failure app decamelizeTree stringify themes).
Proof.
  induction themes as [|theme themes IH]; intros w.
  - simpl. rewrite app_nil_r. by destruct w.
  - simpl. unfold generate_theme.
    destruct (styleTreeJSON theme) as [json|e]; simpl.
    + rewrite IH. simpl. by rewrite <- app_assoc.
    + rewrite app_nil_r. by destruct w.
Qed.

End GenerateFacts.

(* ================================================================= *)
(** * Further properties of the sources *)

(** ** Object literals and spreads *)

Lemma keys_set k v o :
  map fst (set k v o)
  = if has_key k o then map fst o else map fst o ++ [k].
Proof.
  unfold has_key. induction o as [|[k' v'] o IH]; simpl; [done|].
  destruct (String.eqb k k') eqn:E; simpl; [done|].
  rewrite IH. by destruct (get k o).
Qed.

Lemma has_key_elem k o : has_key k o = true ↔ k ∈ map fst o.
Proof.
  unfold has_key. rewrite <- get_is_Some.
  destruct (get k o); split; eauto; [done | by intros [? ?]].
Qed.

Lemma NoDup_keys_set k v o :
  NoDup (map fst o) → NoDup (map fst (set k v o)).
Proof.
  intros Hnd. rewrite keys_set. destruct (has_key k o) eqn:Hk; [done|].
  apply NoDup_app. split; [done|]. split; [|apply NoDup_singleton].
  intros x Hx ->%list_elem_of_singleton.
  apply has_key_elem in Hx. congruence.
Qed.

Lemma NoDup_keys_assign acc m :
  NoDup (map fst acc) → NoDup (map fst (assign acc m)).
Proof.
  destruct m as [k v|o]; simpl; [apply NoDup_keys_set|].
  revert acc. induction o as [|[k v] o IH]; intros acc Hnd; simpl; [done|].
  by apply IH, NoDup_keys_set.
Qed.

(** An object literal never holds a key twice. *)
Lemma NoDup_keys_literal ms : NoDup (map fst (literal ms)).
Proof.
  unfold literal. assert (H : NoDup (map fst (@nil (string * Value)))) by constructor.
  revert H. generalize (@nil (string * Value)) as acc.
  induction ms as [|m ms IH]; intros acc Hnd; simpl; [done|].
  by apply IH, NoDup_keys_assign.
Qed.

Lemma get_not_elem k o : k ∉ map fst o → get k o = None.
Proof.
  intros Hk. destruct (get k o) eqn:E; [|done].
  exfalso. apply Hk, get_is_Some. eauto.
Qed.

(** [{ ...acc, ...src }] read at [k]: the source wins. *)
Lemma get_spread src : ∀ acc k,
  NoDup (map fst src) →
  get k (assign acc (Spread src))
  = match get k src with Some v => Some v | None => get k acc end.
Proof.
  induction src as [|[k1 v1] src IH]; intros acc k Hnd; simpl; [done|].
  apply NoDup_cons in Hnd as [Hk1 Hnd].
  simpl in IH. rewrite (IH _ _ Hnd).
  destruct (String.eqb k k1) eqn:E.
  - apply String.eqb_eq in E. subst k1.
    rewrite (get_not_elem k src Hk1). apply get_set_eq.
  - apply String.eqb_neq in E. destruct (get k src); [done|].
    apply get_set_ne. congruence.
Qed.

Lemma get_field acc k k' v :
  get k (assign acc (Field k' v))
  = if String.eqb k k' then Some v else get k acc.
Proof.
  simpl. destruct (String.eqb k k') eqn:E.
  - apply String.eqb_eq in E. subst. apply get_set_eq.
  - apply String.eqb_neq in E. apply get_set_ne. congruence.
Qed.

(** The keys after a spread of fresh keys: the old ones, then the new. *)
Lemma keys_spread_fresh src : ∀ acc,
  NoDup (map fst src) → (∀ k, k ∈ map fst src → k ∉ map fst acc) →
  map fst (assign acc (Spread src)) = map fst acc ++ map fst src.
Proof.
  induction src as [|[k1 v1] src IH]; intros acc Hnd Hfresh; simpl.
  - by rewrite app_nil_r.
  - apply NoDup_cons in Hnd as [Hk1 Hnd]. simpl in IH. rewrite IH; [|done|].
    + rewrite keys_set.
      assert (has_key k1 acc = false) as ->.
      { destruct (has_key k1 acc) eqn:E; [|done]. apply has_key_elem in E.
        exfalso. eapply Hfresh; [|exact E]. simpl. by left. }
      by rewrite <- app_assoc.
    + intros k Hk. rewrite keys_set.
      assert (Hacc : k ∉ map fst acc) by (apply Hfresh; simpl; by right).
      destruct (has_key k1 acc); [done|].
      rewrite not_elem_of_app, list_elem_of_singleton. split; [done|].
      intros ->. done.
Qed.

(** A spread onto the empty object copies a well-formed object. *)
Lemma spread_copy o : NoDup (map fst o) → literal [Spread o] = o.
Proof.
  intros Hnd. unfold literal. simpl fold_left.
  assert (H : ∀ acc, NoDup (map fst (acc ++ o)) →
            fold_left (fun a kv => set kv.1 kv.2 a) o acc = acc ++ o).
  { clear Hnd. induction o as [|[k v] o IH]; intros acc Hnd; simpl.
    - by rewrite app_nil_r.
    - assert (Hset : set k v acc = acc ++ [(k, v)]).
      { rewrite fmap_app in Hnd. apply NoDup_app in Hnd as (_ & Hdis & _).
        assert (Hk : k ∉ map fst acc).
        { intros Hin. apply (Hdis k Hin). simpl. by left. }
        clear -Hk. induction acc as [|[k' v'] acc IH]; simpl; [done|].
        simpl in Hk. apply not_elem_of_cons in Hk as [Hne Hk].
        apply String.eqb_neq in Hne. rewrite Hne. by rewrite IH. }
      rewrite Hset, IH; [by rewrite <- app_assoc|].
      by rewrite <- app_assoc. }
  by apply (H []).
Qed.

(** ** More on [text] *)

Lemma text_Some core theme family c properties :
  text core theme family c (Some properties)
  = Ok (set "size"
          (VNum (value (fontSize core (sizeKey (prop "size" properties) family))))
          (assign [("family", fontFamily core family);
                   ("color", VStr (value (textColor_ theme c)))]
             (Spread properties))).
Proof. reflexivity. Qed.

(** X2: Every property other than [size] reaches the record as [properties]
    gives it, [family] and [color] included; [family] and [color] are
    those of [core] and of the theme only when [properties] has none. *)
Theorem text_properties_override core theme family c properties k :
  NoDup (map fst properties) → k ≠ "size" →
  ∃ style,
    text core theme family c (Some properties) = Ok style
    ∧ get k style
      = match get k properties with
        | Some v => Some v
        | None => get k [("family", fontFamily core family);
                         ("color", VStr (value (textColor_ theme c)))]
        end.
Proof.
  intros Hnd Hk. eexists. split; [apply text_Some|].
  rewrite get_set_ne by congruence. by apply get_spread.
Qed.

Lemma text_properties_override_witness :
  ∃ style,
    text sample_core cave_dark "mono" muted
      (Some (literal [Field "weight" (VStr "bold"); Field "color" (VStr "#ff0000")]))
    = Ok style
    ∧ get "color" style = Some (VStr "#ff0000").
Proof.
  destruct (text_properties_override sample_core cave_dark "mono" muted
              (literal [Field "weight" (VStr "bold"); Field "color" (VStr "#ff0000")])
              "color") as (style & Hs & Hget).
  - apply NoDup_keys_literal.
  - discriminate.
  - exists style. split; [exact Hs | exact Hget].
Defined.

(** X3: The keys of the record, in order: [family], [color], the keys of
    [properties] as written, and [size] last unless [properties] already
    placed it. *)
Theorem text_key_order core theme family c properties :
  NoDup (map fst properties) →
  "family" ∉ map fst properties → "color" ∉ map fst properties →
  ∃ style,
    text core theme family c (Some properties) = Ok style
    ∧ map fst style
      = ["family"; "color"] ++ map fst properties
        ++ (if has_key "size" properties then [] else ["size"]).
Proof.
  intros Hnd Hfam Hcol. eexists. split; [apply text_Some|].
  rewrite keys_set.
  assert (Hkeys : map fst (assign [("family", fontFamily core family);
                                   ("color", VStr (value (textColor_ theme c)))]
                             (Spread properties))
                  = ["family"; "color"] ++ map fst properties).
  { apply keys_spread_fresh; [done|]. intros k Hk. simpl.
    rewrite !not_elem_of_cons. split; [congruence|]. split; [congruence|].
    apply not_elem_of_nil. }
  assert (Hhas : has_key "size"
                   (assign [("family", fontFamily core family);
                            ("color", VStr (value (textColor_ theme c)))]
                      (Spread properties))
                 = has_key "size" properties).
  { unfold has_key. rewrite get_spread by done. by destruct (get "size" properties). }
  rewrite Hhas, Hkeys. destruct (has_key "size" properties).
  - by rewrite app_nil_r.
  - by rewrite <- app_assoc.
Qed.

Lemma text_key_order_witness :
  ∃ style,
    text sample_core cave_dark "mono" muted
      (Some (literal [Field "size" (VStr "xs"); Field "weight" (VStr "bold")]))
    = Ok style
    ∧ map fst style = ["family"; "color"; "size"; "weight"].
Proof.
  destruct (text_key_order sample_core cave_dark "mono" muted
              (literal [Field "size" (VStr "xs"); Field "weight" (VStr "bold")]))
    as (style & Hs & Hkeys).
  - apply NoDup_keys_literal.
  - intros H%list_elem_of_In. vm_compute in H. intuition discriminate.
  - intros H%list_elem_of_In. vm_compute in H. intuition discriminate.
  - exists style. split; [exact Hs | exact Hkeys].
Defined.

(** Objects with the same keys in the same order and the same values
    except possibly under [k]. *)
Local Abbreviation same_but k :=
  (Forall2 (fun a b : string * Value => a.1 = b.1 ∧ (a.1 ≠ k → a.2 = b.2))).

Lemma same_but_refl k (o : Obj) : same_but k o o.
Proof. induction o; constructor; auto. Qed.

Lemma same_but_eq k (o1 o2 : Obj) :
  same_but k o1 o2 → k ∉ map fst o1 → o1 = o2.
Proof.
  induction 1 as [|[k1 v1] [k2 v2] o1 o2 [Hk Hv] _ IH]; intros Hnot; [done|].
  simpl in *. apply not_elem_of_cons in Hnot as [Hne Hnot]. subst k2.
  rewrite Hv by congruence. f_equal. auto.
Qed.

Lemma same_but_set_k k (o1 o2 : Obj) v1 v2 :
  same_but k o1 o2 → same_but k (set k v1 o1) (set k v2 o2).
Proof.
  induction 1 as [|[k1 w1] [k2 w2] o1 o2 [Hk Hv] Ho IH]; simpl in *.
  - constructor; [|constructor]. simpl. split; [done|]. congruence.
  - subst k2. destruct (String.eqb k k1) eqn:E.
    + apply String.eqb_eq in E. subst k1. constructor; [|done].
      simpl. split; [done|]. congruence.
    + constructor; [|done]. simpl. auto.
Qed.

Lemma same_but_set k k' (o1 o2 : Obj) v :
  same_but k o1 o2 → same_but k (set k' v o1) (set k' v o2).
Proof.
  induction 1 as [|[k1 w1] [k2 w2] o1 o2 [Hk Hv] Ho IH]; simpl in *.
  - constructor; [|constructor]. auto.
  - subst k2. destruct (String.eqb k' k1); constructor; simpl; auto.
Qed.

Lemma same_but_spread k (p1 p2 : Obj) : ∀ acc1 acc2,
  same_but k p1 p2 → same_but k acc1 acc2 →
  same_but k (assign acc1 (Spread p1)) (assign acc2 (Spread p2)).
Proof.
  intros acc1 acc2 Hp. revert acc1 acc2.
  induction Hp as [|[k1 w1] [k2 w2] p1 p2 [Hk Hv] Hp IH]; intros acc1 acc2 Hacc;
    simpl in *; [done|].
  subst k2. apply IH.
  destruct (decide (k1 = k)) as [->|Hne].
  - by apply same_but_set_k.
  - rewrite (Hv Hne). by apply same_but_set.
Qed.

Lemma set_same_but k v (o1 o2 : Obj) :
  same_but k o1 o2 → NoDup (map fst o1) → set k v o1 = set k v o2.
Proof.
  induction 1 as [|[k1 w1] [k2 w2] o1 o2 [Hk Hv] Ho IH]; intros Hnd; [done|].
  simpl in *. subst k2. apply NoDup_cons in Hnd as [Hk1 Hnd].
  destruct (String.eqb k k1) eqn:E.
  - apply String.eqb_eq in E. subst k1. f_equal. by apply (same_but_eq k).
  - apply String.eqb_neq in E. rewrite Hv by congruence. f_equal. auto.
Qed.

(** X1: Which size is asked for makes no difference: two [properties] that
    differ only in the value of [size], truthy in both, give the same
    record. *)
Theorem text_ignores_requested_size core theme family c properties size1 size2 :
  truthy size1 = true → truthy size2 = true →
  text core theme family c (Some (set "size" size1 properties))
  = text core theme family c (Some (set "size" size2 properties))
  ∧ is_ok (text core theme family c (Some (set "size" size1 properties))) = true.
Proof.
  intros H1 H2. split; [|done]. rewrite !text_Some. f_equal.
  assert (Hp : ∀ s, prop "size" (set "size" s properties) = s).
  { intros s. unfold prop. by rewrite get_set_eq. }
  rewrite !Hp. unfold sizeKey. rewrite H1, H2. simpl orb. cbv iota.
  apply set_same_but.
  - apply same_but_spread; [|apply same_but_refl].
    apply same_but_set_k, same_but_refl.
  - apply NoDup_keys_assign. simpl.
    apply NoDup_cons_2; [|apply NoDup_singleton].
    rewrite list_elem_of_singleton. discriminate.
Qed.

Lemma text_ignores_requested_size_witness :
  text sample_core cave_dark "mono" muted
    (Some (set "size" (VStr "xs") (literal [Field "weight" (VStr "bold")])))
  = text sample_core cave_dark "mono" muted
      (Some (set "size" (VStr "lg") (literal [Field "weight" (VStr "bold")]))).
Proof.
  apply (text_ignores_requested_size sample_core cave_dark "mono" muted
           (literal [Field "weight" (VStr "bold")]) (VStr "xs") (VStr "lg"));
    reflexivity.
Defined.

(** ** The components of the style tree *)


Section StyleTreeFacts.
Context (core : Core) (iconColor : Theme → TextColor → Value).


End StyleTreeFacts.

(** ** More on the generation loop *)

Lemma write_all_last fs ws1 p json ws2 :
  p ∉ ws2.*1 → write_all fs (ws1 ++ (p, json) :: ws2) !! p = Some json.
Proof.
  induction ws2 as [|kv ws2 IH] using rev_ind; intros Hp.
  - rewrite write_all_snoc. apply lookup_insert_eq.
  - rewrite fmap_app, not_elem_of_app in Hp. destruct Hp as [Hp Hkv].
    replace (ws1 ++ (p, json) :: ws2 ++ [kv])
      with ((ws1 ++ (p, json) :: ws2) ++ [kv]) by by rewrite <- app_assoc.
    rewrite write_all_snoc, lookup_insert_ne; [auto|].
    simpl in Hkv. rewrite list_elem_of_singleton in Hkv. congruence.
Qed.

Section GenerateMore.
Context (app : Theme → JS Value) (decamelizeTree : Value → Value)
  (stringify : Value → string) (path_resolve : string → string)
  (dirname : string).

Local Abbreviation generate := (generate app decamelizeTree stringify path_resolve dirname).
Local Abbreviation outputs := (outputs app decamelizeTree stringify path_resolve dirname).
Local Abbreviation failure := (failure app decamelizeTree stringify).
Local Abbreviation themeJSON := (styleTreeJSON app decamelizeTree stringify).
Local Abbreviation outPath := (outPath path_resolve dirname).

Lemma styleTreeJSON_ok theme :
  is_ok (app theme) = true → ∃ json, themeJSON theme = Ok json.
Proof.
  unfold styleTreeJSON. destruct (app theme); [eauto | done].
Qed.

Lemma outputs_ok themes :
  Forall (fun t => is_ok (app t) = true) themes →
  (outputs themes).*1 = map outPath themes ∧ failure themes = None
  ∧ ∀ ts1 t ts2 json, themes = ts1 ++ t :: ts2 → themeJSON t = Ok json →
      ∃ ws1 ws2, outputs themes = ws1 ++ (outPath t, json) :: ws2
                 ∧ ws2.*1 = map outPath ts2.
Proof.
  induction 1 as [|t l Ht Hall (IHk & IHf & IH)]; simpl.
  - split; [done|]. split; [done|]. intros [|? ?] ? ? ? ?; done.
  - destruct (styleTreeJSON_ok t Ht) as [json Hjson]. rewrite Hjson. simpl.
    split; [by f_equal|]. split; [done|].
    intros ts1 t' ts2 json' Heq Hjson'. destruct ts1 as [|t1 ts1]; simpl in Heq.
    + inversion Heq; subst. rewrite Hjson in Hjson'. inversion Hjson'; subst.
      exists [], (outputs ts2). done.
    + inversion Heq; subst.
      destruct (IH ts1 t' ts2 json' eq_refl Hjson') as (ws1 & ws2 & -> & Hws2).
      exists ((outPath t1, json) :: ws1), ws2. done.
Qed.

Lemma outputs_stop ts1 t ts2 e :
  Forall (fun t => is_ok (app t) = true) ts1 → app t = Err e →
  outputs (ts1 ++ t :: ts2) = outputs ts1 ∧ failure (ts1 ++ t :: ts2) = Some e.
Proof.
  intros Hall He. induction Hall as [|t1 ts1 Ht1 _ [IHo IHf]]; simpl.
  - unfold styleTreeJSON. by rewrite He.
  - destruct (styleTreeJSON_ok t1 Ht1) as [json ->]. by rewrite IHo, IHf.
Qed.

(** X10: The loop stops at the first theme whose tree throws: the themes
    before it are written and logged as in a run over them alone, the
    themes after it are not looked at, and the exception is the run's. *)
Theorem generate_stops ts1 t ts2 e w :
  Forall (fun t => is_ok (app t) = true) ts1 → app t = Err e →
  generate (ts1 ++ t :: ts2) w = ((generate ts1 w).1, Some e)
  ∧ (generate ts1 w).2 = None.
Proof.
  intros Hall He. rewrite !generate_outputs.
  destruct (outputs_stop ts1 t ts2 e Hall He) as [-> ->].
  destruct (outputs_ok ts1 Hall) as (_ & -> & _). done.
Qed.

(** X11: After a run in which no tree throws, the file of a theme holds that
    theme's text unless a later theme of the list has the same path; the
    run prints one line per theme, in order, and ends without an
    exception. *)
Theorem generate_writes ts1 t ts2 json w :
  Forall (fun t => is_ok (app t) = true) (ts1 ++ t :: ts2) →
  themeJSON t = Ok json →
  outPath t ∉ map outPath ts2 →
  files (generate (ts1 ++ t :: ts2) w).1 !! outPath t = Some json
  ∧ console (generate (ts1 ++ t :: ts2) w).1
    = console w ++ map (fun t => "Generated " +:+ outPath t) (ts1 ++ t :: ts2)
  ∧ (generate (ts1 ++ t :: ts2) w).2 = None.
Proof.
  intros Hall Hjson Hlast. rewrite generate_outputs. cbn [fst snd files console].
  destruct (outputs_ok _ Hall) as (Hkeys & Hfail & Hsplit).
  destruct (Hsplit ts1 t ts2 json eq_refl Hjson) as (ws1 & ws2 & Hws & Hws2).
  split; [|split; [|done]].
  - rewrite Hws. apply write_all_last. by rewrite Hws2.
  - f_equal.
    assert (Hlines : ∀ ws : list (string * string),
              map (fun kv => "Generated " +:+ kv.1) ws
              = map (fun p => "Generated " +:+ p) ws.*1).
    { intros ws. induction ws as [|kv ws IH]; [done|]. simpl. by f_equal. }
    rewrite Hlines, Hkeys. apply map_map.
Qed.
Lemma outputs_paths themes p :
  p ∈ (outputs themes).*1 → p ∈ map outPath themes.
Proof.
  induction themes as [|t themes IH]; simpl; [done|].
  destruct (themeJSON t) as [json|e]; simpl; [|by rewrite elem_of_nil].
  rewrite !elem_of_cons. intros [->|Hp]; [by left | right; auto].
Qed.

(** X16: A run writes at the output paths of its themes and nowhere else:
    every other path of the file system holds after the run what it held
    before, whether the run ends normally or on an exception. *)
Theorem generate_frame themes w p :
  p ∉ map outPath themes →
  files (generate themes w).1 !! p = files w !! p.
Proof.
  intros Hp. rewrite generate_outputs. cbn [fst files].
  rewrite (write_all_lookup (files w) (outputs themes) p).
  destruct (write_all ∅ (outputs themes) !! p) as [v|] eqn:Hv; [|done].
  exfalso. apply Hp, outputs_paths, write_all_written. eauto.
Qed.

End GenerateMore.

(** ** Components over layers *)

Section LayersFacts.
Context (Layer : Type) (background foreground : Layer → list Value → Value)
  (layerBorder layerText : Layer → list Value → Obj)
  (withOpacityValue : Value → Q → Value).

Local Abbreviation HoverPopover := (HoverPopover Layer background layerBorder layerText).
Local Abbreviation tabBar :=
  (tabBar Layer background foreground layerBorder layerText withOpacityValue).

(** [{ ...base, background, border }] read at another key. *)
Lemma restyled_get (base : Obj) bg bd k :
  NoDup (map fst base) → k ≠ "background" → k ≠ "border" →
  get k (literal [Spread base; Field "background" bg; Field "border" bd])
  = get k base.
Proof.
  intros Hnd Hbg Hbd. apply String.eqb_neq in Hbg, Hbd.
  unfold literal. cbn [fold_left].
  rewrite !get_field, Hbd, Hbg, get_spread by done.
  by destruct (get k base).
Qed.

(** X12: The info, warning and error containers of the hover popover are the
    base container with [background] and [border] replaced by those of
    their own style: same keys in the same order, and every other value
    (corner radius, padding, shadow, margin) that of the base. *)
Theorem HoverPopover_variants elevation :
  get "container" (HoverPopover elevation)
  = Some (VObj (baseContainer Layer background layerBorder elevation))
  ∧ Forall (fun variant =>
      ∃ styled,
        get variant.1 (HoverPopover elevation) = Some (VObj styled)
        ∧ map fst styled
          = map fst (baseContainer Layer background layerBorder elevation)
        ∧ get "background" styled
          = Some (background (middle Layer elevation) [VStr variant.2])
        ∧ get "border" styled
          = Some (VObj (layerBorder (middle Layer elevation) [VStr variant.2]))
        ∧ ∀ k, k ≠ "background" → k ≠ "border" →
            get k styled
            = get k (baseContainer Layer background layerBorder elevation))
      [("infoContainer", "accent"); ("warningContainer", "warning");
       ("errorContainer", "negative")].
Proof.
  split; [reflexivity|].
  repeat apply Forall_cons_2; [..|apply Forall_nil_2];
    (eexists (literal [Spread (baseContainer Layer background layerBorder elevation);
                       Field "background" _; Field "border" _]);
     split; [reflexivity|]; split; [reflexivity|];
     split; [reflexivity|]; split; [reflexivity|];
     intros k Hbg Hbd; apply restyled_get; [apply NoDup_keys_literal|done..]).
Qed.


(** X14: The border of an active tab is the tab's border with [bottom] set to
    [false], in either pane; the dragged tab's border has all four sides
    [false]; the pane button takes the tab's border as it is.  Whatever
    else [border] returned for the tab is kept. *)
Theorem tabBar_borders colorScheme :
  let tabBorder :=
    layerBorder (middle Layer (lowest Layer colorScheme))
      [VObj [("left", VBool true); ("bottom", VBool true); ("overlay", VBool true)]] in
  NoDup (map fst tabBorder) →
  ∃ active dragged,
    lookup_path (VObj (tabBar colorScheme)) ["activePane"; "activeTab"; "border"]
    = Some (VObj active)
    ∧ lookup_path (VObj (tabBar colorScheme)) ["inactivePane"; "activeTab"; "border"]
      = Some (VObj active)
    ∧ lookup_path (VObj (tabBar colorScheme)) ["draggedTab"; "border"]
      = Some (VObj dragged)
    ∧ lookup_path (VObj (tabBar colorScheme)) ["paneButton"; "border"]
      = Some (VObj tabBorder)
    ∧ (∀ k, get k active
            = if String.eqb k "bottom" then Some (VBool false) else get k tabBorder)
    ∧ (∀ k, get k dragged
            = if bool_decide (k ∈ ["top"; "left"; "right"; "bottom"])
              then Some (VBool false) else get k tabBorder).
Proof.
  intros tabBorder Hnd.
  exists (literal [Spread tabBorder; Field "bottom" (VBool false)]),
         (literal [Spread tabBorder; Field "top" (VBool false);
                   Field "left" (VBool false); Field "right" (VBool false);
                   Field "bottom" (VBool false)]).
  split; [reflexivity|]. split; [reflexivity|]. split; [reflexivity|].
  split; [|split].
  - transitivity (Some (VObj (literal [Spread tabBorder]))); [reflexivity|].
    by rewrite spread_copy.
  - intros k. unfold literal. cbn [fold_left].
    rewrite get_field, get_spread by done.
    destruct (String.eqb k "bottom"); [done|]. by destruct (get k tabBorder).
  - intros k. unfold literal. cbn [fold_left].
    rewrite !get_field, get_spread by done.
    destruct (String.eqb k "bottom") eqn:Eb.
    { apply String.eqb_eq in Eb. subst. done. }
    destruct (String.eqb k "right") eqn:Er.
    { apply String.eqb_eq in Er. subst. done. }
    destruct (String.eqb k "left") eqn:El.
    { apply String.eqb_eq in El. subst. done. }
    destruct (String.eqb k "top") eqn:Et.
    { apply String.eqb_eq in Et. subst. done. }
    apply String.eqb_neq in Eb, Er, El, Et.
    rewrite bool_decide_eq_false_2.
    + by destruct (get k tabBorder).
    + rewrite !elem_of_cons, elem_of_nil. intuition.
Qed.
End LayersFacts.

Lemma tabBar_borders_witness :
  ∃ active,
    lookup_path
      (VObj (tabBar unit sample_background sample_background sample_layerBorder
               sample_layerBorder sample_withOpacityValue
               {| lowest := sample_elevation |}))
      ["activePane"; "activeTab"; "border"] = Some (VObj active)
    ∧ get "bottom" active = Some (VBool false)
    ∧ get "left" active = Some (VBool true).
Proof.
  destruct (tabBar_borders unit sample_background sample_background
              sample_layerBorder sample_layerBorder sample_withOpacityValue
              {| lowest := sample_elevation |})
    as (active & dragged & Hactive & _ & _ & _ & Hget & _).
  - apply NoDup_keys_literal.
  - exists active. split; [exact Hactive|].
    split; [exact (Hget "bottom") | exact (Hget "left")].
Defined.

(** ** The workspace *)

Section WorkspaceFacts.
Context (Layer : Type) (background foreground layerBorderColor : Layer → list Value → Value)
  (layerBorder layerText : Layer → list Value → Obj)
  (withOpacityValue : Value → Q → Value)
  (statusBarTree tabBarTree : WorkspaceScheme Layer → Value).

Local Abbreviation workspace_ :=
  (workspace Layer background foreground layerBorderColor layerBorder layerText
     withOpacityValue statusBarTree tabBarTree).
Local Abbreviation button := (titlebarButton Layer background layerBorder layerText).

(** X18: The two buttons of the title bar.  [titlebar.signInPrompt] and
    [titlebar.shareButton] are both the [titlebarButton] record, field
    for field.  Its [background] and [border] are the button's own
    whatever the text style holds; under every other key but [hover] the
    text style comes first and the button's [cornerRadius] and [padding]
    show only where the text style is silent.  The avatars have corner
    radius 9, and the inactive avatar is the avatar with [grayscale]
    added. *)
Theorem workspace_titlebar_buttons colorScheme :
  let layer := lowestLayer Layer colorScheme in
  let style :=
    layerText layer [VStr "sans"; VStr "variant"; VObj [("size", VStr "xs")]] in
  NoDup (map fst style) →
  lookup_path (VObj (workspace_ colorScheme)) ["titlebar"; "signInPrompt"]
  = Some (VObj (button layer))
  ∧ lookup_path (VObj (workspace_ colorScheme)) ["titlebar"; "shareButton"]
    = Some (VObj (button layer))
  ∧ get "background" (button layer)
    = Some (background layer [VStr "variant"])
  ∧ get "border" (button layer) = Some (VObj (layerBorder layer []))
  ∧ (∀ k, k ∉ ["background"; "border"; "hover"] →
       get k (button layer)
       = match get k style with
         | Some v => Some v
         | None =>
             get k [("cornerRadius", VNum 6);
                    ("padding", VObj [("top", VNum 1); ("bottom", VNum 1);
                                      ("left", VNum 8); ("right", VNum 8)])]
         end)
  ∧ lookup_path (VObj (workspace_ colorScheme)) ["titlebar"; "avatar"; "cornerRadius"]
    = Some (VNum 9)
  ∧ ∃ avatar,
      lookup_path (VObj (workspace_ colorScheme)) ["titlebar"; "avatar"]
      = Some (VObj avatar)
      ∧ lookup_path (VObj (workspace_ colorScheme)) ["titlebar"; "inactiveAvatar"]
        = Some (VObj (avatar ++ [("grayscale", VBool true)])).
Proof.
  intros layer style Hnd.
  assert (Hcopy : literal [Spread (button layer)] = button layer).
  { apply spread_copy, NoDup_keys_literal. }
  split; [|split].
  - transitivity (Some (VObj (literal [Spread (button layer)]))); [reflexivity|].
    by rewrite Hcopy.
  - transitivity (Some (VObj (literal [Spread (button layer)]))); [reflexivity|].
    by rewrite Hcopy.
  - assert (Hget : ∀ k, k ≠ "hover" →
              get k (button layer)
              = if String.eqb k "border" then Some (VObj (layerBorder layer []))
                else if String.eqb k "background"
                     then Some (background layer [VStr "variant"])
                else match get k style with
                     | Some v => Some v
                     | None =>
                         get k [("cornerRadius", VNum 6);
                                ("padding", VObj [("top", VNum 1); ("bottom", VNum 1);
                                                  ("left", VNum 8); ("right", VNum 8)])]
                     end).
    { intros k Hk. apply String.eqb_neq in Hk.
      unfold titlebarButton, literal. cbn [fold_left].
      rewrite !get_field, Hk.
      destruct (String.eqb k "border"); [done|].
      destruct (String.eqb k "background"); [done|].
      rewrite get_spread by exact Hnd. reflexivity. }
    split; [by rewrite Hget|]. split; [by rewrite Hget|]. split.
    + intros k Hk. rewrite !elem_of_cons, elem_of_nil in Hk.
      rewrite Hget by tauto.
      destruct (String.eqb k "border") eqn:Eb;
        [apply String.eqb_eq in Eb; tauto|].
      destruct (String.eqb k "background") eqn:Eg;
        [apply String.eqb_eq in Eg; tauto|].
      reflexivity.
    + split; [reflexivity|]. eexists. split; reflexivity.
Qed.
End WorkspaceFacts.

Lemma workspace_titlebar_buttons_witness :
  lookup_path
    (VObj (workspace unit sample_background sample_background sample_background
             sample_layerBorder sample_layerBorder sample_withOpacityValue
             (fun _ => VUndefined) (fun _ => VUndefined) sample_scheme))
    ["titlebar"; "shareButton"]
  = Some (VObj (titlebarButton unit sample_background sample_layerBorder
                  sample_layerBorder tt))
  ∧ get "size" (titlebarButton unit sample_background sample_layerBorder
                  sample_layerBorder tt) = Some (VStr "xs")
  ∧ get "cornerRadius" (titlebarButton unit sample_background sample_layerBorder
                          sample_layerBorder tt) = Some (VNum 6).
Proof.
  destruct (workspace_titlebar_buttons unit sample_background sample_background
              sample_background sample_layerBorder sample_layerBorder
              sample_withOpacityValue (fun _ => VUndefined) (fun _ => VUndefined)
              sample_scheme)
    as (_ & Hshare & _ & _ & Hget & _).
  - apply NoDup_keys_literal.
  - split; [exact Hshare|].
    split; [apply (Hget "size") | apply (Hget "cornerRadius")];
      rewrite !elem_of_cons, elem_of_nil;
      intros [H|[H|[H|[]]]]; discriminate H.
Defined.

Lemma generate_stops_witness :
  generate sample_app_dark id sample_stringify id "/styles/src"
    [cave_dark; cave_light; cave_dark] {| files := ∅; console := [] |}
  = ({| files := {["/styles/src/../crates/zed/assets/themes/cave-dark.json" := "editor"]};
        console := ["Generated /styles/src/../crates/zed/assets/themes/cave-dark.json"] |},
     Some (TypeError "Cannot read properties of undefined (reading 'size')")).
Proof.
  destruct (generate_stops sample_app_dark id sample_stringify id "/styles/src"
              [cave_dark] cave_light [cave_dark]
              (TypeError "Cannot read properties of undefined (reading 'size')")
              {| files := ∅; console := [] |}) as [Hrun _].
  - repeat constructor.
  - reflexivity.
  - change ([cave_dark] ++ [cave_light; cave_dark])
      with [cave_dark; cave_light; cave_dark] in Hrun.
    rewrite Hrun. vm_compute. reflexivity.
Defined.

Lemma generate_writes_witness :
  files (generate sample_app id sample_stringify id "/styles/src"
           [cave_dark; cave_light] {| files := ∅; console := [] |}).1
    !! "/styles/src/../crates/zed/assets/themes/cave-dark.json"
  = Some "editor".
Proof.
  destruct (generate_writes sample_app id sample_stringify id "/styles/src"
              [] cave_dark [cave_light] "editor" {| files := ∅; console := [] |})
    as [Hfile _].
  - repeat constructor.
  - reflexivity.
  - simpl. rewrite list_elem_of_singleton. vm_compute. discriminate.
  - exact Hfile.
Defined.

Lemma generate_frame_witness :
  files (generate sample_app id sample_stringify id "/styles/src"
           [cave_dark; cave_light]
           {| files := {["/notes.txt" := "keep"]}; console := [] |}).1
    !! "/notes.txt"
  = Some "keep".
Proof.
  rewrite (generate_frame sample_app id sample_stringify id "/styles/src"
             [cave_dark; cave_light]
             {| files := {["/notes.txt" := "keep"]}; console := [] |}
             "/notes.txt").
  - reflexivity.
  - cbn [map]. rewrite !elem_of_cons, elem_of_nil.
    intros [H|[H|H]]; [vm_compute in H; discriminate H
                      | vm_compute in H; discriminate H | done].
Defined.

(** ** Light on dark, dark on light *)

(** X15: In [cave], whatever the appearance, every neutral text colour stands
    off every neutral background and every neutral border: lighter than
    all of them in the dark theme, darker than all of them in the light
    one. *)
Theorem cave_text_stands_off withOpacity buildPlayer normal bold darkTheme :
  let theme := cave withOpacity buildPlayer normal bold darkTheme in
  Forall (fun tc =>
      Forall (fun n =>
          Forall (fun s =>
              if darkTheme
              then (luma (value (backgroundColor_ theme n s))
                    < luma (value (textColor_ theme tc)))%Z
              else (luma (value (textColor_ theme tc))
                    < luma (value (backgroundColor_ theme n s)))%Z)
            [base; hovered; active; focused])
        [bg100; bg300; bg500; bgOn300; bgOn500]
      ∧ Forall (fun b =>
            if darkTheme
            then (luma (value (borderColor_ theme b))
                  < luma (value (textColor_ theme tc)))%Z
            else (luma (value (textColor_ theme tc))
                  < luma (value (borderColor_ theme b)))%Z)
          [bcPrimary; bcSecondary; bcMuted; bcFocused; bcActive])
    [primary; secondary; muted; placeholder; tcActive].
Proof.
  intros theme. subst theme.
  destruct darkTheme;
    repeat (first [apply Forall_nil_2 | apply Forall_cons_2 | split]);
    vm_compute; reflexivity.
Qed.

(** X17: What the appearance flag of [cave] changes and what it leaves: the
    accent backgrounds, borders and text colours and the eight player
    entries are the same in the dark and the light theme; every neutral
    background, border and text colour differs between the two; the icon
    colours are the text colours. *)
Theorem cave_accents_fixed withOpacity buildPlayer normal bold :
  let darkScheme := cave withOpacity buildPlayer normal bold true in
  let lightScheme := cave withOpacity buildPlayer normal bold false in
  Forall (fun n => ∀ s,
            backgroundColor_ darkScheme n s = backgroundColor_ lightScheme n s)
    [bgOk; bgError; bgWarning; bgInfo]
  ∧ Forall (fun b => borderColor_ darkScheme b = borderColor_ lightScheme b)
      [bcOk; bcError; bcWarning; bcInfo]
  ∧ Forall (fun c => textColor_ darkScheme c = textColor_ lightScheme c)
      [feature; ok; error; warning; info]
  ∧ (∀ n, player_ darkScheme n = player_ lightScheme n)
  ∧ Forall (fun n => ∀ s,
              backgroundColor_ darkScheme n s ≠ backgroundColor_ lightScheme n s)
      [bg100; bg300; bg500; bgOn300; bgOn500]
  ∧ Forall (fun b => borderColor_ darkScheme b ≠ borderColor_ lightScheme b)
      [bcPrimary; bcSecondary; bcMuted; bcFocused; bcActive]
  ∧ Forall (fun c => textColor_ darkScheme c ≠ textColor_ lightScheme c)
      [primary; secondary; muted; placeholder; tcActive]
  ∧ (∀ c, iconColor_ darkScheme c = textColor_ darkScheme c)
  ∧ (∀ c, iconColor_ lightScheme c = textColor_ lightScheme c).
Proof.
  intros darkScheme lightScheme.
  repeat (first [apply Forall_nil_2 | apply Forall_cons_2 | split]);
    try reflexivity; try (intros []; reflexivity);
    try (intros []; discriminate); discriminate.
Qed.
